(** * langchain-camb: task polling, audio resolution and output encoding

    A shallow embedding of the polling core of [langchain_camb.tools.base],
    the audio resolver and encoder of [langchain_camb.tools.translated_tts]
    and the error-channel rule of [langchain_camb.tools.translation],
    followed by the properties the specification states about them. *)

From Stdlib Require Import ZArith List Bool Lia QArith.
From Stdlib Require Import Strings.String Strings.Ascii Strings.Byte.
From Stdlib Require Import DecimalString.
Import ListNotations.

Set Warnings "-register-all".
Local Open Scope string_scope.
Local Open Scope Z_scope.
Local Open Scope list_scope.

(** ** Python values *)

Module Py.

(** The dynamically typed values the tools inspect.  [PyObj] is an
    attribute-style object (an SDK response model), [PyDict] a mapping with
    string keys in insertion order, [PyList] any finite iterable of items. *)
Inductive pyval : Type :=
| PyNone
| PyBool (b : bool)
| PyInt (n : Z)
| PyStr (s : string)
| PyBytes (b : list byte)
| PyList (items : list pyval)
| PyDict (entries : list (string * pyval))
| PyObj (attrs : list (string * pyval)).

(** The exceptions that travel through the modelled code. *)
Inductive pyexn : Type :=
| RuntimeError (msg : string)
| TimeoutError (msg : string)
| ApiError (status_code : pyval) (body : pyval)
| StructError
| TypeError (msg : string)
| OtherError (cls : string) (msg : string).

Inductive outcome (A : Type) : Type :=
| Ok (a : A)
| Raise (e : pyexn).
Arguments Ok {A} a.
Arguments Raise {A} e.

(** Lookup in an association list, first binding wins. *)
Fixpoint assoc (k : string) (l : list (string * pyval)) : option pyval :=
  match l with
  | [] => None
  | (k', v) :: l' => if String.eqb k k' then Some v else assoc k l'
  end.

(** [bool(v)]. *)
Definition truthy (v : pyval) : bool :=
  match v with
  | PyNone => false
  | PyBool b => b
  | PyInt n => negb (n =? 0)
  | PyStr s => negb (String.eqb s "")
  | PyBytes b => match b with [] => false | _ => true end
  | PyList l => match l with [] => false | _ => true end
  | PyDict d => match d with [] => false | _ => true end
  | PyObj _ => true
  end.

(** [a or b]. *)
Definition py_or (a b : pyval) : pyval := if truthy a then a else b.

(** The data attributes of a value: only attribute-style objects carry
    any. *)
Definition get_attr (v : pyval) (name : string) : option pyval :=
  match v with
  | PyObj attrs => assoc name attrs
  | _ => None
  end.

(** [hasattr(v, name)] for the names the tools probe.  The built-in
    containers and strings answer only to ["__iter__"].  An object
    answers to the names it lists and to no other, special methods
    included: one whose class defines [__iter__], as the models of the
    SDK do, lists ["__iter__"]. *)
Definition hasattr (v : pyval) (name : string) : bool :=
  match v with
  | PyObj _ => match get_attr v name with Some _ => true | None => false end
  | PyStr _ | PyBytes _ | PyList _ | PyDict _ => String.eqb name "__iter__"
  | _ => false
  end.

(** [getattr(v, name, default)]. *)
Definition getattr (v : pyval) (name : string) (default : pyval) : pyval :=
  match get_attr v name with
  | Some x => x
  | None => default
  end.

(** [d.get(key)] on a mapping. *)
Definition dict_get (d : list (string * pyval)) (key : string) : pyval :=
  match assoc key d with
  | Some x => x
  | None => PyNone
  end.

(** [v in (s1, s2, ...)] for a tuple of string literals: only a string
    compares equal to a string. *)
Definition py_in (v : pyval) (names : list string) : bool :=
  match v with
  | PyStr s => existsb (String.eqb s) names
  | _ => false
  end.

(** [v == n] for an integer literal ([True == 1] and [False == 0]). *)
Definition py_eq_int (v : pyval) (n : Z) : bool :=
  match v with
  | PyInt m => m =? n
  | PyBool b => (if b then 1 else 0) =? n
  | _ => false
  end.

Definition isinstance_str (v : pyval) : bool :=
  match v with PyStr _ => true | _ => false end.

Definition isinstance_bytes (v : pyval) : bool :=
  match v with PyBytes _ => true | _ => false end.

(** [str(n)] for an integer. *)
Definition int_str (n : Z) : string := NilZero.string_of_int (Z.to_int n).

(** [bytes.startswith] / [str.startswith] on the underlying sequences. *)
Fixpoint bytes_startswith (data pre : list byte) {struct pre} : bool :=
  match pre, data with
  | [], _ => true
  | p :: pre', d :: data' => Byte.eqb p d && bytes_startswith data' pre'
  | _ :: _, [] => false
  end.

Fixpoint str_startswith (s pre : string) {struct pre} : bool :=
  match pre, s with
  | EmptyString, _ => true
  | String p pre', String c s' => Ascii.eqb p c && str_startswith s' pre'
  | String _ _, EmptyString => false
  end.

(** [sub in s]: substring search. *)
Fixpoint str_contains (sub s : string) : bool :=
  str_startswith s sub
  || match s with
     | EmptyString => false
     | String _ s' => str_contains sub s'
     end.

(** [str.lower] on the ASCII range, which is where HTTP header values
    live; other code units are left alone (no non-ASCII character
    lowercases to an ASCII letter of the patterns searched for). *)
Definition lower_ascii (c : ascii) : ascii :=
  let n := N_of_ascii c in
  if ((65 <=? n) && (n <=? 90))%N then ascii_of_N (n + 32) else c.

Fixpoint str_lower (s : string) : string :=
  match s with
  | EmptyString => EmptyString
  | String c s' => String (lower_ascii c) (str_lower s')
  end.

(** A bytes literal written as text. *)
Definition b (s : string) : list byte := list_byte_of_string s.

(** An f-string: its literal and interpolated pieces, joined. *)
Definition fstring (pieces : list string) : string := String.concat "" pieces.

(** *** Pure code that may raise *)

Definition obind {A B} (r : outcome A) (k : A -> outcome B) : outcome B :=
  match r with
  | Ok a => k a
  | Raise e => Raise e
  end.

(** [sep.join(items)] with [sep = ""]: every item must be a [str], and
    the first that is not raises [TypeError].  Python's message also
    gives the index and the type of that item; it is cut short here. *)
Fixpoint str_join (items : list pyval) : outcome string :=
  match items with
  | [] => Ok ""
  | PyStr s :: rest => obind (str_join rest) (fun t => Ok (s ++ t)%string)
  | _ :: _ => Raise (TypeError "sequence item: expected str instance")
  end.

(** *** Bytes and little-endian integers *)

Definition Z_of_byte (x : byte) : Z := Z.of_N (Byte.to_N x).

Definition byte_of_Z (z : Z) : byte :=
  match Byte.of_N (Z.to_N (z mod 256)) with
  | Some x => x
  | None => x00
  end.

(** The [width] low-order bytes of [v], least significant first. *)
Fixpoint le_bytes (width : nat) (v : Z) : list byte :=
  match width with
  | O => []
  | S width' => byte_of_Z (v mod 256) :: le_bytes width' (v / 256)
  end.

(** The unsigned integer a little-endian byte string denotes. *)
Fixpoint le_value (bs : list byte) : Z :=
  match bs with
  | [] => 0
  | x :: bs' => Z_of_byte x + 256 * le_value bs'
  end.

(** [struct.pack] items of the standard little-endian layout: ["4s"] pads
    or truncates to four bytes, ["I"] and ["H"] reject what does not fit
    32 and 16 unsigned bits. *)
Definition pack_4s (s : list byte) : outcome (list byte) :=
  Ok (firstn 4 s ++ repeat x00 (4 - List.length s)).

Definition pack_I (v : Z) : outcome (list byte) :=
  if (0 <=? v) && (v <=? 4294967295) then Ok (le_bytes 4 v)
  else Raise StructError.

Definition pack_H (v : Z) : outcome (list byte) :=
  if (0 <=? v) && (v <=? 65535) then Ok (le_bytes 2 v)
  else Raise StructError.

(** The items of one [struct.pack] call, packed left to right. *)
Fixpoint pack_all (items : list (outcome (list byte)))
    : outcome (list byte) :=
  match items with
  | [] => Ok []
  | item :: rest =>
      obind item (fun x => obind (pack_all rest) (fun y => Ok (x ++ y)))
  end.

(** *** [base64.b64encode] *)

Definition b64_alphabet : string :=
  "ABCDEFGHIJKLMNOPQRSTUVWXYZabcdefghijklmnopqrstuvwxyz0123456789+/".

Definition b64_char (n : Z) : ascii :=
  match String.get (Z.to_nat (Z.land n 63)) b64_alphabet with
  | Some c => c
  | None => "="%char
  end.

Fixpoint b64encode (data : list byte) : string :=
  match data with
  | [] => ""
  | [x] =>
      let n := Z.shiftl (Z_of_byte x) 16 in
      String (b64_char (Z.shiftr n 18))
        (String (b64_char (Z.shiftr n 12)) "==")
  | [x; y] =>
      let n := Z.lor (Z.shiftl (Z_of_byte x) 16) (Z.shiftl (Z_of_byte y) 8) in
      String (b64_char (Z.shiftr n 18))
        (String (b64_char (Z.shiftr n 12))
          (String (b64_char (Z.shiftr n 6)) "="))
  | x :: y :: z :: rest =>
      let n := Z.lor (Z.lor (Z.shiftl (Z_of_byte x) 16)
                            (Z.shiftl (Z_of_byte y) 8)) (Z_of_byte z) in
      String (b64_char (Z.shiftr n 18))
        (String (b64_char (Z.shiftr n 12))
          (String (b64_char (Z.shiftr n 6))
            (String (b64_char n) (b64encode rest))))
  end.

End Py.
Import Py.

(** ** The runtime the tools run against *)

(** An HTTP response, as far as the tools read it. *)
Record response : Type := mkResponse {
  status_code : pyval;
  content : list byte;
  content_type_header : option string
}.

(** What the embedding takes from the interpreter and from the outside
    world. *)
Class Runtime : Type := {
  (** Python's [float], the product [int * float] and the text an
      f-string gives a float. *)
  pyfloat : Type;
  int_mul_float : Z -> pyfloat -> pyfloat;
  float_str : pyfloat -> string;
  (** [repr] of the values whose [str] is their [repr] (containers,
      bytes, objects). *)
  py_repr : pyval -> string;
  (** Everything outside the process: the provider, the clock, the file
      system. *)
  World : Type;
  (** What a sleep of a delay does to the world, whoever waits; a
      negative delay, where the sleep takes it, passes at once. *)
  elapse : pyfloat -> World -> World;
  (** What [time.sleep] and [asyncio.sleep] raise for a delay they do not
      take, [None] for a delay they do.  [time.sleep] raises [ValueError]
      for a negative delay and for NaN, [OverflowError] for a delay too
      large for a timestamp.  [asyncio.sleep] takes a negative delay,
      which passes at once; from Python 3.13 on it raises [ValueError]
      for NaN. *)
  time_sleep_error : pyfloat -> option pyexn;
  asyncio_sleep_error : pyfloat -> option pyexn;
  (** [httpx.Client().get(url, headers=...)]. *)
  http_get :
    pyval -> list (string * pyval) -> World -> outcome response * World;
  (** The path [tempfile.NamedTemporaryFile] picks, before the suffix. *)
  temp_stem : World -> string * World;
  write_file : string -> list byte -> World -> World;
  (** [client.translation.translation_stream] called with the keyword
      arguments given, on the blocking and on the asynchronous client. *)
  translation_stream :
    list (string * pyval) -> World -> outcome pyval * World;
  translation_stream_async :
    list (string * pyval) -> World -> outcome pyval * World
}.

Section Tools.

Context {rt : Runtime}.

(** [str(v)], as an f-string placeholder renders a value. *)
Definition py_str (v : pyval) : string :=
  match v with
  | PyNone => "None"
  | PyBool true => "True"
  | PyBool false => "False"
  | PyInt n => int_str n
  | PyStr s => s
  | _ => py_repr v
  end.

(** *** Observable events *)

Inductive event : Type :=
| EvGetStatus (task_id : string) (run_id : option Z)
| EvAsyncioSleep (delay : pyfloat)
| EvTimeSleep (delay : pyfloat)
| EvHttpGet (url : pyval) (headers : list (string * pyval))
| EvTempFile (name : string) (data : list byte)
| EvTranslationStream (kwargs : list (string * pyval))
| EvTranslationStreamAsync (kwargs : list (string * pyval)).

(** *** The effect monad: world passing, an event log, exceptions *)

Definition M (A : Type) : Type := World -> outcome A * World * list event.

Definition ret {A} (a : A) : M A := fun w => (Ok a, w, []).

Definition raise {A} (e : pyexn) : M A := fun w => (Raise e, w, []).

Definition bind {A B} (m : M A) (k : A -> M B) : M B :=
  fun w =>
    match m w with
    | (Ok a, w1, t1) =>
        match k a w1 with
        | (r, w2, t2) => (r, w2, t1 ++ t2)
        end
    | (Raise e, w1, t1) => (Raise e, w1, t1)
    end.

(** The result of a run, with [t0] logged before it. *)
Definition logged {A} (t0 : list event)
    (res : outcome A * World * list event) : outcome A * World * list event :=
  match res with
  | (r, w, t) => (r, w, t0 ++ t)
  end.

(** A pure computation that may raise, run in the monad. *)
Definition lift {A} (r : outcome A) : M A := fun w => (r, w, []).

(** [try: m except ApiError as e: handler e.status_code e.body]: any
    other exception passes through. *)
Definition try_except_ApiError {A} (m : M A)
    (handler : pyval -> pyval -> M A) : M A :=
  fun w =>
    match m w with
    | (Raise (ApiError code body), w1, t1) =>
        match handler code body w1 with
        | (r, w2, t2) => (r, w2, t1 ++ t2)
        end
    | r => r
    end.

(** A call into the outside world: logged, then answered by it. *)
Definition call {A} (ev : event) (f : World -> outcome A * World) : M A :=
  fun w => match f w with (r, w1) => (r, w1, [ev]) end.

Notation "x <- m ;; k" := (bind m (fun x => k))
  (at level 61, m at next level, right associativity).
Notation "m ;;; k" := (bind m (fun _ => k))
  (at level 61, right associativity).

(** [await asyncio.sleep(delay)] and [time.sleep(delay)]: the same delay,
    taken cooperatively or by blocking the thread.  Each checks its
    argument first and raises, before any time passes, for a delay it
    does not take; the two do not take the same delays. *)
Definition asyncio_sleep (delay : pyfloat) : M unit :=
  match asyncio_sleep_error delay with
  | None => call (EvAsyncioSleep delay) (fun w => (Ok tt, elapse delay w))
  | Some e => raise e
  end.

Definition time_sleep (delay : pyfloat) : M unit :=
  match time_sleep_error delay with
  | None => call (EvTimeSleep delay) (fun w => (Ok tt, elapse delay w))
  | Some e => raise e
  end.

(** [for _ in range(n): body] where the body may [return] out of the
    enclosing function ([Some v]) or fall through to the next round
    ([None]); [orelse] is what follows the loop. *)
Fixpoint for_range {A} (n : nat) (body : M (option A)) (orelse : M A) : M A :=
  match n with
  | O => orelse
  | S n' =>
      r <- body ;;
      match r with
      | Some v => ret v
      | None => for_range n' body orelse
      end
  end.

(** [range(n)] has [n] rounds, none when [n] is not positive. *)
Definition range_len (n : Z) : nat := Z.to_nat n.

(** ** [langchain_camb/tools/base.py] *)

Record CambBaseTool : Type := mkTool {
  api_key : pyval;
  max_poll_attempts : Z;
  poll_interval : pyfloat;
  sync_client : pyval;
  async_client : pyval
}.

(** A status function of the SDK: what the provider answers to
    [get_status_fn(task_id, run_id=run_id)] in a given world. *)
Definition status_fn : Type :=
  string -> option Z -> World -> outcome pyval * World.

Definition _poll_task_status (self : CambBaseTool) (get_status_fn : status_fn)
    (task_id : string) (run_id : option Z) : M pyval :=
  for_range (range_len (max_poll_attempts self))
    (status <- call (EvGetStatus task_id run_id)
                    (get_status_fn task_id run_id) ;;
     verdict <-
       (if hasattr status "status" then
          let status_value := getattr status "status" PyNone in
          if py_in status_value ["completed"; "SUCCESS"] then
            ret (Some status)
          else if py_in status_value ["failed"; "FAILED"; "error"] then
            let error_msg := getattr status "error" (PyStr "Unknown error") in
            raise (RuntimeError (fstring ["Task failed: "; py_str error_msg]))
          else ret None
        else ret None) ;;
     match verdict with
     | Some v => ret (Some v)
     | None => asyncio_sleep (poll_interval self) ;;; ret None
     end)
    (raise (TimeoutError
       (fstring ["Task "; task_id; " did not complete within ";
                 float_str (int_mul_float (max_poll_attempts self)
                                          (poll_interval self));
                 " seconds"]))).

Definition _poll_task_status_sync (self : CambBaseTool)
    (get_status_fn : status_fn) (task_id : string) (run_id : option Z)
    : M pyval :=
  for_range (range_len (max_poll_attempts self))
    (status <- call (EvGetStatus task_id run_id)
                    (get_status_fn task_id run_id) ;;
     verdict <-
       (if hasattr status "status" then
          let status_value := getattr status "status" PyNone in
          if py_in status_value ["completed"; "SUCCESS"] then
            ret (Some status)
          else if py_in status_value ["failed"; "FAILED"; "error"] then
            let error_msg := getattr status "error" (PyStr "Unknown error") in
            raise (RuntimeError (fstring ["Task failed: "; py_str error_msg]))
          else ret None
        else ret None) ;;
     match verdict with
     | Some v => ret (Some v)
     | None => time_sleep (poll_interval self) ;;; ret None
     end)
    (raise (TimeoutError
       (fstring ["Task "; task_id; " did not complete within ";
                 float_str (int_mul_float (max_poll_attempts self)
                                          (poll_interval self));
                 " seconds"]))).

(** ** [langchain_camb/tools/translated_tts.py] *)

Definition _detect_audio_format (audio_data : list byte)
    (content_type : string) : string :=
  if bytes_startswith audio_data (b "RIFF") then "wav"
  else if bytes_startswith audio_data [xff; xfb]
          || bytes_startswith audio_data [xff; xfa]
          || bytes_startswith audio_data (b "ID3") then "mp3"
  else if bytes_startswith audio_data (b "fLaC") then "flac"
  else if bytes_startswith audio_data (b "OggS") then "ogg"
  else
    let content_type := str_lower content_type in
    if str_contains "wav" content_type || str_contains "wave" content_type
    then "wav"
    else if str_contains "mpeg" content_type || str_contains "mp3" content_type
    then "mp3"
    else if str_contains "flac" content_type then "flac"
    else if str_contains "ogg" content_type then "ogg"
    else "pcm".

Definition _add_wav_header (pcm_data : list byte) : outcome (list byte) :=
  let sample_rate := 24000 in
  let num_channels := 1 in
  let bits_per_sample := 16 in
  let byte_rate := sample_rate * num_channels * bits_per_sample / 8 in
  let block_align := num_channels * bits_per_sample / 8 in
  let data_size := Z.of_nat (List.length pcm_data) in
  obind
    (pack_all
       [pack_4s (b "RIFF");
        pack_I (36 + data_size);
        pack_4s (b "WAVE");
        pack_4s (b "fmt ");
        pack_I 16;
        pack_H 1;
        pack_H num_channels;
        pack_I sample_rate;
        pack_I byte_rate;
        pack_H block_align;
        pack_H bits_per_sample;
        pack_4s (b "data");
        pack_I data_size])
    (fun header => Ok (header ++ pcm_data)).

(** [ext_map.get(audio_format, ".wav")]. *)
Definition ext_map_get (audio_format : string) : string :=
  if String.eqb audio_format "wav" then ".wav"
  else if String.eqb audio_format "mp3" then ".mp3"
  else if String.eqb audio_format "flac" then ".flac"
  else if String.eqb audio_format "ogg" then ".ogg"
  else if String.eqb audio_format "pcm" then ".wav"
  else ".wav".

(** [with tempfile.NamedTemporaryFile(suffix=..., delete=False) as f:
    f.write(data); return f.name]. *)
Definition write_named_temporary_file (suffix : string) (data : list byte)
    : M string :=
  fun w =>
    let (stem, w1) := temp_stem w in
    let name := (stem ++ suffix)%string in
    (Ok name, write_file name data w1, [EvTempFile name data]).

Definition _format_output (audio_data : list byte) (output_format : string)
    (audio_format : string) : M string :=
  prepared <-
    (if String.eqb audio_format "pcm"
        && match audio_data with [] => false | _ => true end
     then
       wrapped <- lift (_add_wav_header audio_data) ;;
       ret (wrapped, "wav")
     else ret (audio_data, audio_format)) ;;
  let (audio_data, audio_format) := prepared : list byte * string in
  let extension := ext_map_get audio_format in
  if String.eqb output_format "base64" then
    ret (b64encode audio_data)
  else
    write_named_temporary_file extension audio_data.

(** [response.headers.get("content-type", "")]. *)
Definition headers_get_content_type (r : response) : string :=
  match content_type_header r with
  | Some v => v
  | None => ""
  end.

Definition _get_audio_from_status (self : CambBaseTool) (status : pyval)
    : M (list byte * string) :=
  let run_id := getattr status "run_id" PyNone in
  primary <-
    (if truthy run_id then
       let base_url := getattr (sync_client self) "_client_wrapper" PyNone in
       let result_url :=
         if truthy base_url && hasattr base_url "base_url" then
           fstring [py_str (getattr base_url "base_url" PyNone);
                    "/tts-result/"; py_str run_id]
         else
           fstring ["https://client.camb.ai/apis/tts-result/"; py_str run_id] in
       let headers := [("x-api-key", api_key self)] in
       response <- call (EvHttpGet (PyStr result_url) headers)
                        (http_get (PyStr result_url) headers) ;;
       if py_eq_int (status_code response) 200 then
         let audio_data := content response in
         let audio_format :=
           _detect_audio_format audio_data
             (headers_get_content_type response) in
         ret (Some (audio_data, audio_format))
       else ret None
     else ret None) ;;
  match primary with
  | Some found => ret found
  | None =>
      let message := getattr status "message" PyNone in
      fallback <-
        (if truthy message then
           let url :=
             match message with
             | PyDict d =>
                 py_or (dict_get d "output_url")
                   (py_or (dict_get d "audio_url") (dict_get d "url"))
             | PyStr s => if str_startswith s "http" then message else PyNone
             | _ => PyNone
             end in
           if truthy url then
             response <- call (EvHttpGet url []) (http_get url []) ;;
             let audio_data := content response in
             let audio_format :=
               _detect_audio_format audio_data
                 (headers_get_content_type response) in
             ret (Some (audio_data, audio_format))
           else ret None
         else ret None) ;;
      match fallback with
      | Some found => ret found
      | None => ret ([], "pcm")
      end
  end.

(** ** [langchain_camb/tools/translation.py] *)

(** The items a [for chunk in result] visits: the elements of an
    iterable, the keys of a mapping.  An object that lists ["__iter__"]
    is read as a model of the SDK, whose iteration gives pairs of a field
    name and a value: a pair has no [text] and is not a [str], so the
    loop of [_extract_text] collects nothing from it, and the pairs are
    left out here. *)
Definition iter_items (result : pyval) : list pyval :=
  match result with
  | PyList items => items
  | PyDict entries => map (fun kv => PyStr (fst kv)) entries
  | _ => []
  end.

Fixpoint collect_chunks (items : list pyval) : list pyval :=
  match items with
  | [] => []
  | chunk :: rest =>
      if hasattr chunk "text" then
        getattr chunk "text" PyNone :: collect_chunks rest
      else if isinstance_str chunk then chunk :: collect_chunks rest
      else collect_chunks rest
  end.

Definition _extract_text (result : pyval) : outcome pyval :=
  if hasattr result "__iter__"
     && negb (isinstance_str result || isinstance_bytes result) then
    let chunks := collect_chunks (iter_items result) in
    obind (str_join chunks) (fun s => Ok (PyStr s))
  else if hasattr result "text" then Ok (getattr result "text" PyNone)
  else if isinstance_str result then Ok result
  else Ok (PyStr (py_str result)).

Definition translation_kwargs (text : string)
    (source_language target_language : Z) (formality : pyval)
    : list (string * pyval) :=
  let kwargs := [("text", PyStr text);
                 ("source_language", PyInt source_language);
                 ("target_language", PyInt target_language)] in
  if truthy formality then kwargs ++ [("formality", formality)] else kwargs.

Definition _run (text : string) (source_language target_language : Z)
    (formality : pyval) : M pyval :=
  let kwargs :=
    translation_kwargs text source_language target_language formality in
  try_except_ApiError
    (result <- call (EvTranslationStream kwargs) (translation_stream kwargs) ;;
     lift (_extract_text result))
    (fun e_status_code e_body =>
       if py_eq_int e_status_code 200 && truthy e_body then
         ret (PyStr (py_str e_body))
       else raise (ApiError e_status_code e_body)).

Definition _arun (text : string) (source_language target_language : Z)
    (formality : pyval) : M pyval :=
  let kwargs :=
    translation_kwargs text source_language target_language formality in
  try_except_ApiError
    (result <- call (EvTranslationStreamAsync kwargs)
                    (translation_stream_async kwargs) ;;
     lift (_extract_text result))
    (fun e_status_code e_body =>
       if py_eq_int e_status_code 200 && truthy e_body then
         ret (PyStr (py_str e_body))
       else raise (ApiError e_status_code e_body)).

End Tools.

(** ** Vocabulary of the properties *)

Section Vocabulary.

Context {rt : Runtime}.

(** The status field of a payload is one of the given spellings. *)
Definition status_field_in (st : pyval) (names : list string) : bool :=
  match get_attr st "status" with
  | Some (PyStr s) => existsb (String.eqb s) names
  | _ => false
  end.

Definition success_status (st : pyval) : bool :=
  status_field_in st ["completed"; "SUCCESS"].

Definition failure_status (st : pyval) : bool :=
  status_field_in st ["failed"; "FAILED"; "error"].

(** A terminal status is a success or a failure; anything else leaves the
    task pending. *)
Definition terminal_status (st : pyval) : bool :=
  success_status st || failure_status st.

(** [pending_run f tid rid d k w w']: starting in world [w], the status
    function answers [k] times in a row with a payload that is not
    terminal, the delay [d] passing after each answer, and the world is
    [w'] afterwards. *)
Inductive pending_run (f : status_fn) (tid : string) (rid : option Z)
    (d : pyfloat) : nat -> World -> World -> Prop :=
| pending_nil : forall w, pending_run f tid rid d O w w
| pending_cons : forall k w st w1 w',
    f tid rid w = (Ok st, w1) ->
    terminal_status st = false ->
    pending_run f tid rid d k (elapse d w1) w' ->
    pending_run f tid rid d (S k) w w'.

(** The log of [k] pending rounds: a fetch, then a sleep, [k] times. *)
Fixpoint pending_log (sleep : pyfloat -> event) (tid : string)
    (rid : option Z) (d : pyfloat) (k : nat) : list event :=
  match k with
  | O => []
  | S k' => EvGetStatus tid rid :: sleep d :: pending_log sleep tid rid d k'
  end.

Definition is_fetch (ev : event) : bool :=
  match ev with EvGetStatus _ _ => true | _ => false end.

(** How many status fetches a log holds, and the delays slept, in order. *)
Definition fetch_count (log : list event) : nat :=
  List.length (filter is_fetch log).

Fixpoint slept (log : list event) : list pyfloat :=
  match log with
  | [] => []
  | EvAsyncioSleep d :: log' => d :: slept log'
  | EvTimeSleep d :: log' => d :: slept log'
  | _ :: log' => slept log'
  end.


(** Forgetting how a delay was taken: a blocking sleep read as a
    cooperative one. *)
Definition forget_sleep_kind (ev : event) : event :=
  match ev with
  | EvTimeSleep d => EvAsyncioSleep d
  | _ => ev
  end.

(** A whole run read that way. *)
Definition forget_sleep_kinds {A}
    (res : outcome A * World * list event) : outcome A * World * list event :=
  match res with
  | (r, w, t) => (r, w, map forget_sleep_kind t)
  end.



(** A byte sequence begins with the given bytes. *)
Definition starts_with (data pre : list byte) : Prop :=
  exists rest, data = pre ++ rest.

(** A text contains [word] somewhere, whatever the case of its letters. *)
Definition mentions (text word : string) : Prop :=
  exists pre mid post,
    text = (pre ++ mid ++ post)%string /\ str_lower mid = word.

(** No magic sequence of the detector begins the data. *)
Definition no_magic (data : list byte) : Prop :=
  ~ starts_with data (b "RIFF")
  /\ ~ starts_with data [xff; xfb]
  /\ ~ starts_with data [xff; xfa]
  /\ ~ starts_with data (b "ID3")
  /\ ~ starts_with data (b "fLaC")
  /\ ~ starts_with data (b "OggS").

(** [data[off : off + len]]. *)
Definition slice (off len : nat) (data : list byte) : list byte :=
  firstn len (skipn off data).

(** The fields of a canonical 44-byte RIFF/WAVE header, as a reader of
    the file finds them. *)
Record wav_header : Type := mkWavHeader {
  riff_tag : list byte;
  riff_size : Z;
  wave_tag : list byte;
  fmt_tag : list byte;
  fmt_size : Z;
  audio_format_code : Z;
  num_channels : Z;
  sample_rate : Z;
  byte_rate : Z;
  block_align : Z;
  bits_per_sample : Z;
  data_tag : list byte;
  data_size : Z
}.

Definition read_wav_header (bs : list byte) : wav_header :=
  {| riff_tag := slice 0 4 bs;
     riff_size := le_value (slice 4 4 bs);
     wave_tag := slice 8 4 bs;
     fmt_tag := slice 12 4 bs;
     fmt_size := le_value (slice 16 4 bs);
     audio_format_code := le_value (slice 20 2 bs);
     num_channels := le_value (slice 22 2 bs);
     sample_rate := le_value (slice 24 4 bs);
     byte_rate := le_value (slice 28 4 bs);
     block_align := le_value (slice 32 2 bs);
     bits_per_sample := le_value (slice 34 2 bs);
     data_tag := slice 36 4 bs;
     data_size := le_value (slice 40 4 bs) |}.

(** The longest data the 32-bit size fields of the header can describe:
    [36 + len] must fit. *)
Definition max_wav_data : Z := 4294967259.

(** The first candidate that counts as present, in the order given:
    what [a or b or c] selects, when it selects anything. *)
Fixpoint first_truthy (candidates : list pyval) : option pyval :=
  match candidates with
  | [] => None
  | v :: rest => if truthy v then Some v else first_truthy rest
  end.

(** Fetching a URL found in the status message: its bytes, and the
    format detected from them and from the content type. *)
Definition fetched_audio (url : pyval) (w : World)
    : outcome (list byte * string) * World * list event :=
  match http_get url [] w with
  | (Ok r, w1) =>
      (Ok (content r,
           _detect_audio_format (content r) (headers_get_content_type r)),
       w1, [EvHttpGet url []])
  | (Raise e, w1) => (Raise e, w1, [EvHttpGet url []])
  end.

(** The address of the primary fetch for a run. *)
Definition tts_result_url (self : CambBaseTool) (run_id : pyval) : string :=
  let base_url := getattr (sync_client self) "_client_wrapper" PyNone in
  if truthy base_url && hasattr base_url "base_url" then
    fstring [py_str (getattr base_url "base_url" PyNone);
             "/tts-result/"; py_str run_id]
  else
    fstring ["https://client.camb.ai/apis/tts-result/"; py_str run_id].

(** The primary path of the resolver yields nothing: there is no run id
    to follow, or the fetch for the run id answers with a status other
    than 200.  [w1] and [t1] are the world and the log it leaves. *)
Definition primary_gave_up (self : CambBaseTool) (status : pyval)
    (w w1 : World) (t1 : list event) : Prop :=
  let run_id := getattr status "run_id" PyNone in
  let url := PyStr (tts_result_url self run_id) in
  let headers := [("x-api-key", api_key self)] in
  (truthy run_id = false /\ w1 = w /\ t1 = [])
  \/ (truthy run_id = true
      /\ exists r : response,
           http_get url headers w = (Ok r, w1)
           /\ py_eq_int (status_code r) 200 = false
           /\ t1 = [EvHttpGet url headers]).

End Vocabulary.

(** ** A small concrete runtime, to run the tools on *)

Module Demo.

Record world : Type := mkWorld {
  clock : Z;
  fetched : nat;
  files : list (string * list byte)
}.

Definition wav_bytes : list byte := b "RIFF$...WAVEfmt ".

(** What [time.sleep(-1)] raises. *)
Definition sleep_rejected : pyexn :=
  OtherError "ValueError" "sleep length must be non-negative".

(** Delays are whole seconds, so none is NaN; [time.sleep] takes the
    delays from 0 on and [asyncio.sleep] all of them, a negative one
    passing at once.  Every GET answers 200 with a short WAV file; the
    translation endpoint shows the provider quirk, a 200 answer delivered
    as an [ApiError]. *)
Definition runtime : Runtime := {|
  pyfloat := Z;
  int_mul_float := Z.mul;
  float_str := fun x => (int_str x ++ ".0")%string;
  py_repr := fun _ => "<object>";
  World := world;
  elapse := fun d w => mkWorld (clock w + Z.max 0 d) (fetched w) (files w);
  time_sleep_error := fun d => if 0 <=? d then None else Some sleep_rejected;
  asyncio_sleep_error := fun _ => None;
  http_get := fun _ _ w =>
    (Ok (mkResponse (PyInt 200) wav_bytes (Some "audio/wav")), w);
  temp_stem := fun w =>
    (("/tmp/tmp" ++ int_str (Z.of_nat (List.length (files w))))%string, w);
  write_file := fun name data w =>
    mkWorld (clock w) (fetched w) ((name, data) :: files w);
  translation_stream := fun _ w =>
    (Raise (ApiError (PyInt 200) (PyStr "Hola")), w);
  translation_stream_async := fun _ w =>
    (Raise (ApiError (PyInt 200) (PyStr "Hola")), w)
|}.

Definition w0 : world := mkWorld 0 0 [].

(** A delay of [n] seconds. *)
Definition secs (n : Z) : @pyfloat runtime := n.

(** A status function that answers from a script, one entry per fetch,
    and with [last] once the script is used up. *)
Definition scripted (script : list pyval) (last : pyval)
    : @status_fn runtime :=
  fun _ _ w =>
    (Ok (nth (fetched w) script last),
     mkWorld (clock w) (S (fetched w)) (files w)).

Definition pending : pyval := PyObj [("status", PyStr "PENDING")].
Definition completed : pyval :=
  PyObj [("status", PyStr "SUCCESS"); ("run_id", PyInt 42)].
Definition failed : pyval :=
  PyObj [("status", PyStr "failed"); ("error", PyStr "quota exceeded")].
Definition failed_bare : pyval := PyObj [("status", PyStr "error")].

(** A finished task whose message holds an empty [output_url] next to an
    [audio_url]. *)
Definition status_with_empty_output_url : pyval :=
  PyObj [("status", PyStr "SUCCESS");
         ("message", PyDict [("output_url", PyStr "");
                             ("audio_url", PyStr "https://cdn/a.wav")])].

Definition status_with_url_message : pyval :=
  PyObj [("status", PyStr "SUCCESS");
         ("message", PyStr "https://cdn/b.wav")].

Definition tool : @CambBaseTool runtime :=
  mkTool (PyStr "key") 3 (secs 2) (PyObj []) (PyObj []).

(** The same tool configured with a negative interval, and with a
    negative number of attempts. *)
Definition negative_interval_tool : @CambBaseTool runtime :=
  mkTool (PyStr "key") 3 (secs (-1)) (PyObj []) (PyObj []).


End Demo.

(** * The rest of the tools *)

(** ** Configuration: [tools/base.py] and [toolkits/camb_toolkit.py] *)

Module Config.

(** [os.environ.get(name)]. *)
Definition environ_get (environ : list (string * string)) (name : string)
    : pyval :=
  match find (fun kv => String.eqb name (fst kv)) environ with
  | Some kv => PyStr (snd kv)
  | None => PyNone
  end.

Definition api_key_required : pyexn :=
  OtherError "ValueError"
    (fstring ["CAMB AI API key is required. ";
              "Set it via 'api_key' parameter or ";
              "CAMB_API_KEY environment variable."]).

(** [CambBaseTool.validate_api_key], on the one field it reads and
    writes: the result is the [api_key] the validated tool holds. *)
Definition validate_api_key (api_key : pyval)
    (environ : list (string * string)) : outcome pyval :=
  let api_key :=
    if negb (truthy api_key) then environ_get environ "CAMB_API_KEY"
    else api_key in
  if negb (truthy api_key) then Raise api_key_required
  else Ok api_key.

Inductive tool_kind : Type :=
| CambTTSTool
| CambTranslatedTTSTool
| CambTranslationTool
| CambTranscriptionTool
| CambVoiceListTool
| CambVoiceCloneTool
| CambTextToSoundTool
| CambAudioSeparationTool.

Section Toolkit.

Context {rt : Runtime}.

Record CambToolkit : Type := mkToolkit {
  tk_api_key : pyval;
  tk_base_url : pyval;
  tk_timeout : pyfloat;
  include_tts : bool;
  include_translated_tts : bool;
  include_translation : bool;
  include_transcription : bool;
  include_voice_list : bool;
  include_voice_clone : bool;
  include_text_to_sound : bool;
  include_audio_separation : bool
}.

(** A tool as the toolkit builds it: its class and the three settings it
    was given; everything else keeps its default. *)
Record built_tool : Type := mkBuilt {
  built_kind : tool_kind;
  built_api_key : pyval;
  built_base_url : pyval;
  built_timeout : pyfloat
}.

Definition _get_api_key (self : CambToolkit)
    (environ : list (string * string)) : outcome pyval :=
  let key := py_or (tk_api_key self) (environ_get environ "CAMB_API_KEY") in
  if negb (truthy key) then Raise api_key_required
  else Ok key.

(** [Cls(api_key=..., base_url=..., timeout=...)]: building a tool runs
    its validator. *)
Definition new_tool (kind : tool_kind) (api_key base_url : pyval)
    (timeout : pyfloat) (environ : list (string * string))
    : outcome built_tool :=
  obind (validate_api_key api_key environ)
    (fun key => Ok (mkBuilt kind key base_url timeout)).

(** [if flag: tools.append(Cls(common_kwargs))]. *)
Definition append_if (flag : bool) (kind : tool_kind)
    (api_key base_url : pyval) (timeout : pyfloat)
    (environ : list (string * string)) (tools : list built_tool)
    : outcome (list built_tool) :=
  if flag then
    obind (new_tool kind api_key base_url timeout environ)
      (fun t => Ok (tools ++ [t]))
  else Ok tools.

Definition get_tools (self : CambToolkit) (environ : list (string * string))
    : outcome (list built_tool) :=
  obind (_get_api_key self environ) (fun api_key =>
  let base_url := tk_base_url self in
  let timeout := tk_timeout self in
  let tools := [] in
  obind (append_if (include_tts self) CambTTSTool
           api_key base_url timeout environ tools) (fun tools =>
  obind (append_if (include_translated_tts self) CambTranslatedTTSTool
           api_key base_url timeout environ tools) (fun tools =>
  obind (append_if (include_translation self) CambTranslationTool
           api_key base_url timeout environ tools) (fun tools =>
  obind (append_if (include_transcription self) CambTranscriptionTool
           api_key base_url timeout environ tools) (fun tools =>
  obind (append_if (include_voice_list self) CambVoiceListTool
           api_key base_url timeout environ tools) (fun tools =>
  obind (append_if (include_voice_clone self) CambVoiceCloneTool
           api_key base_url timeout environ tools) (fun tools =>
  obind (append_if (include_text_to_sound self) CambTextToSoundTool
           api_key base_url timeout environ tools) (fun tools =>
  obind (append_if (include_audio_separation self) CambAudioSeparationTool
           api_key base_url timeout environ tools) (fun tools =>
  Ok tools))))))))).

(** The classes in the order [get_tools] considers them, and the flag
    that enables each. *)
Definition all_kinds : list tool_kind :=
  [CambTTSTool; CambTranslatedTTSTool; CambTranslationTool;
   CambTranscriptionTool; CambVoiceListTool; CambVoiceCloneTool;
   CambTextToSoundTool; CambAudioSeparationTool].

Definition enabled (self : CambToolkit) (kind : tool_kind) : bool :=
  match kind with
  | CambTTSTool => include_tts self
  | CambTranslatedTTSTool => include_translated_tts self
  | CambTranslationTool => include_translation self
  | CambTranscriptionTool => include_transcription self
  | CambVoiceListTool => include_voice_list self
  | CambVoiceCloneTool => include_voice_clone self
  | CambTextToSoundTool => include_text_to_sound self
  | CambAudioSeparationTool => include_audio_separation self
  end.

End Toolkit.

(** [TranscriptionInput.validate_audio_source] and
    [AudioSeparationInput.validate_audio_source], on the two fields they
    read. *)
Definition transcription_validate_audio_source
    (audio_url audio_file_path : pyval) : outcome (pyval * pyval) :=
  if negb (truthy audio_url) && negb (truthy audio_file_path) then
    Raise (OtherError "ValueError"
             "Either audio_url or audio_file_path must be provided.")
  else if truthy audio_url && truthy audio_file_path then
    Raise (OtherError "ValueError"
             "Provide only one of audio_url or audio_file_path, not both.")
  else Ok (audio_url, audio_file_path).

Definition separation_validate_audio_source
    (audio_url audio_file_path : pyval) : outcome (pyval * pyval) :=
  if negb (truthy audio_url) && negb (truthy audio_file_path) then
    Raise (OtherError "ValueError"
             "Either audio_url or audio_file_path must be provided.")
  else if truthy audio_url && truthy audio_file_path then
    Raise (OtherError "ValueError"
             "Provide only one of audio_url or audio_file_path, not both.")
  else Ok (audio_url, audio_file_path).

End Config.

(** ** The translated-speech tool, end to end:
    [tools/translated_tts.py] *)

Module TranslatedTTS.

Section Tool.

Context {rt : Runtime}.

Local Notation "x <- m ;; k" := (bind m (fun x => k))
  (at level 61, m at next level, right associativity).

(** A call of an SDK method that the log does not record. *)
Definition invoke {A} (f : World -> outcome A * World) : M A :=
  fun w => match f w with (r, w1) => (r, w1, []) end.

(** [obj.name], which raises when the attribute is missing. *)
Definition attribute (obj : pyval) (name : string) : M pyval :=
  match get_attr obj name with
  | Some v => ret v
  | None => raise (OtherError "AttributeError" name)
  end.

Definition _get_audio_from_status_async (self : CambBaseTool)
    (status : pyval) : M (list byte * string) :=
  let run_id := getattr status "run_id" PyNone in
  primary <-
    (if truthy run_id then
       let base_url := getattr (async_client self) "_client_wrapper" PyNone in
       let result_url :=
         if truthy base_url && hasattr base_url "base_url" then
           fstring [py_str (getattr base_url "base_url" PyNone);
                    "/tts-result/"; py_str run_id]
         else
           fstring ["https://client.camb.ai/apis/tts-result/"; py_str run_id] in
       let headers := [("x-api-key", api_key self)] in
       response <- call (EvHttpGet (PyStr result_url) headers)
                        (http_get (PyStr result_url) headers) ;;
       if py_eq_int (status_code response) 200 then
         let audio_data := content response in
         let audio_format :=
           _detect_audio_format audio_data
             (headers_get_content_type response) in
         ret (Some (audio_data, audio_format))
       else ret None
     else ret None) ;;
  match primary with
  | Some found => ret found
  | None =>
      let message := getattr status "message" PyNone in
      fallback <-
        (if truthy message then
           let url :=
             match message with
             | PyDict d =>
                 py_or (dict_get d "output_url")
                   (py_or (dict_get d "audio_url") (dict_get d "url"))
             | PyStr s => if str_startswith s "http" then message else PyNone
             | _ => PyNone
             end in
           if truthy url then
             response <- call (EvHttpGet url []) (http_get url []) ;;
             let audio_data := content response in
             let audio_format :=
               _detect_audio_format audio_data
                 (headers_get_content_type response) in
             ret (Some (audio_data, audio_format))
           else ret None
         else ret None) ;;
      match fallback with
      | Some found => ret found
      | None => ret ([], "pcm")
      end
  end.

(** The keyword arguments of [create_translated_tts]. *)
Definition tts_kwargs (text : string) (source_language target_language : Z)
    (voice_id : Z) (formality : pyval) : list (string * pyval) :=
  let kwargs := [("text", PyStr text);
                 ("voice_id", PyInt voice_id);
                 ("source_language", PyInt source_language);
                 ("target_language", PyInt target_language)] in
  if truthy formality then kwargs ++ [("formality", formality)] else kwargs.

(** An SDK method taking keyword arguments. *)
Definition sdk_method : Type :=
  list (string * pyval) -> World -> outcome pyval * World.

(** [_run], given the two methods of the blocking client it uses.  The
    task id reaches the status method and the timeout message as its
    text. *)
Definition _run (self : CambBaseTool)
    (create_translated_tts : sdk_method)
    (get_translated_tts_task_status : status_fn)
    (text : string) (source_language target_language voice_id : Z)
    (output_format : string) (formality : pyval) : M string :=
  let kwargs :=
    tts_kwargs text source_language target_language voice_id formality in
  result <- invoke (create_translated_tts kwargs) ;;
  task_id <- attribute result "task_id" ;;
  status <- _poll_task_status_sync self get_translated_tts_task_status
              (py_str task_id) None ;;
  found <- _get_audio_from_status self status ;;
  let (audio_data, audio_format) := found : list byte * string in
  _format_output audio_data output_format audio_format.

Definition _arun (self : CambBaseTool)
    (create_translated_tts : sdk_method)
    (get_translated_tts_task_status : status_fn)
    (text : string) (source_language target_language voice_id : Z)
    (output_format : string) (formality : pyval) : M string :=
  let kwargs :=
    tts_kwargs text source_language target_language voice_id formality in
  result <- invoke (create_translated_tts kwargs) ;;
  task_id <- attribute result "task_id" ;;
  status <- _poll_task_status self get_translated_tts_task_status
              (py_str task_id) None ;;
  found <- _get_audio_from_status_async self status ;;
  let (audio_data, audio_format) := found : list byte * string in
  _format_output audio_data output_format audio_format.

End Tool.

End TranslatedTTS.

(** ** The encoders of the other audio tools *)

Module TextToSound.

Section Tool.

Context {rt : Runtime}.

(** [tools/text_to_sound.py], [_format_output]. *)
Definition _format_output (audio_data : list byte) (output_format : string)
    : M string :=
  if String.eqb output_format "base64" then
    ret (b64encode audio_data)
  else
    write_named_temporary_file ".wav" audio_data.

End Tool.

End TextToSound.

Module TTS.

Section Tool.

Context {rt : Runtime}.

(** [tools/tts.py], [_format_output]: raw bytes, base64 text or the path
    of a file. *)
Definition _format_output (audio_data : list byte) (output_format : string)
    : M pyval :=
  if String.eqb output_format "bytes" then
    ret (PyBytes audio_data)
  else if String.eqb output_format "base64" then
    ret (PyStr (b64encode audio_data))
  else
    bind (write_named_temporary_file ".wav" audio_data)
      (fun name => ret (PyStr name)).

End Tool.

End TTS.

(** ** The JSON results: [tools/voice_list.py] and
    [tools/audio_separation.py] *)

(** [d.get(key, default)]. *)
Definition dict_get_or (d : list (string * pyval)) (key : string)
    (default : pyval) : pyval :=
  match assoc key d with
  | Some x => x
  | None => default
  end.

Module VoiceList.

(** [gender_map.get(gender, "unknown")]: the key is looked up by hash and
    equality, so a list or a mapping, which cannot be hashed, raises, and
    [True] and [False] find the entries of 1 and 0. *)
Definition _gender_to_string (gender : pyval) : outcome string :=
  match gender with
  | PyList _ | PyDict _ => Raise (TypeError "unhashable type")
  | _ =>
      Ok (if py_eq_int gender 0 then "not_specified"
          else if py_eq_int gender 1 then "male"
          else if py_eq_int gender 2 then "female"
          else if py_eq_int gender 9 then "not_applicable"
          else "unknown")
  end.

(** The entry appended for one voice. *)
Definition voice_entry (voice : pyval) : outcome pyval :=
  match voice with
  | PyDict d =>
      obind (_gender_to_string (dict_get_or d "gender" (PyInt 0)))
        (fun gender =>
           Ok (PyDict
                 [("id", dict_get d "id");
                  ("name", dict_get_or d "voice_name"
                             (dict_get_or d "name" (PyStr "Unknown")));
                  ("gender", PyStr gender);
                  ("age", dict_get d "age");
                  ("language", dict_get d "language")]))
  | _ =>
      obind (_gender_to_string (getattr voice "gender" (PyInt 0)))
        (fun gender =>
           Ok (PyDict
                 [("id", getattr voice "id" PyNone);
                  ("name", getattr voice "voice_name"
                             (getattr voice "name" (PyStr "Unknown")));
                  ("gender", PyStr gender);
                  ("age", getattr voice "age" PyNone);
                  ("language", getattr voice "language" PyNone)]))
  end.

(** [for voice in voices: voice_list.append(...)]. *)
Fixpoint voice_loop (voices : list pyval) (voice_list : list pyval)
    : outcome (list pyval) :=
  match voices with
  | [] => Ok voice_list
  | voice :: rest =>
      obind (voice_entry voice)
        (fun entry => voice_loop rest (voice_list ++ [entry]))
  end.

(** [_format_voices], given [json.dumps(_, indent=2)]. *)
Definition _format_voices (json_dumps : pyval -> outcome string)
    (voices : list pyval) : outcome string :=
  obind (voice_loop voices []) (fun voice_list =>
  json_dumps (PyList voice_list)).

(** The gender of a voice can be looked up in the gender table. *)
Definition gender_hashable (voice : pyval) : bool :=
  match getattr (match voice with PyDict d => PyObj d | _ => voice end)
          "gender" (PyInt 0) with
  | PyList _ | PyDict _ => false
  | _ => true
  end.

End VoiceList.

Module AudioSeparation.

Section Tool.

Context {rt : Runtime}.

Local Notation "x <- m ;; k" := (bind m (fun x => k))
  (at level 61, m at next level, right associativity).

(** [_format_result], given [json.dumps(_, indent=2)]. *)
Definition _format_result (json_dumps : pyval -> outcome string)
    (result : pyval) : M string :=
  vocals <-
    (if hasattr result "vocals_url" then
       ret (getattr result "vocals_url" PyNone)
     else if hasattr result "vocals" then
       match getattr result "vocals" PyNone with
       | PyBytes data =>
           name <- write_named_temporary_file "_vocals.wav" data ;;
           ret (PyStr name)
       | vocals => ret vocals
       end
     else ret PyNone) ;;
  background <-
    (if hasattr result "background_url" then
       ret (getattr result "background_url" PyNone)
     else if hasattr result "background" then
       match getattr result "background" PyNone with
       | PyBytes data =>
           name <- write_named_temporary_file "_background.wav" data ;;
           ret (PyStr name)
       | background => ret background
       end
     else ret PyNone) ;;
  let background :=
    if hasattr result "instrumental_url"
    then getattr result "instrumental_url" PyNone else background in
  let vocals :=
    if hasattr result "voice_url"
    then getattr result "voice_url" PyNone else vocals in
  lift (json_dumps (PyDict [("vocals", vocals);
                            ("background", background);
                            ("status", PyStr "completed")])).

(** The first of the named attributes the result has, or [None]. *)
Fixpoint first_attribute (result : pyval) (names : list string) : pyval :=
  match names with
  | [] => PyNone
  | name :: rest =>
      match get_attr result name with
      | Some v => v
      | None => first_attribute result rest
      end
  end.

End Tool.

End AudioSeparation.

(** ** Vocabulary of the further properties *)

(** A chunk of a streamed translation is usable when its [text]
    attribute, if it has one, is a string. *)
Definition text_chunk_ok (chunk : pyval) : bool :=
  match get_attr chunk "text" with
  | Some (PyStr _) => true
  | Some _ => false
  | None => true
  end.

(** The text a usable chunk contributes: its [text] attribute, or the
    chunk itself when it is a string, or nothing. *)
Definition chunk_text (chunk : pyval) : string :=
  match get_attr chunk "text" with
  | Some (PyStr s) => s
  | Some _ => ""
  | None => match chunk with PyStr s => s | _ => "" end
  end.

Definition join_texts (texts : list string) : string :=
  fold_right String.append "" texts.

(** The formats the detector knows. *)
Definition audio_formats : list string := ["wav"; "mp3"; "flac"; "ogg"; "pcm"].

(** A text ends with the given suffix. *)
Definition ends_with (text suffix : string) : Prop :=
  exists stem, text = (stem ++ suffix)%string.

(** ** More scenarios to run the tools on *)

Module Scenario.

(** A status function that answers from a script and raises once the
    script is used up. *)
Definition failing (script : list pyval) (e : pyexn)
    : @status_fn Demo.runtime :=
  fun _ _ w =>
    (match nth_error script (Demo.fetched w) with
     | Some st => Ok st
     | None => Raise e
     end,
     Demo.mkWorld (Demo.clock w) (S (Demo.fetched w)) (Demo.files w)).

Definition connection_error : pyexn :=
  OtherError "ConnectionError" "connection reset".

(** A tool that is given no attempt at all. *)
Definition idle_tool : @CambBaseTool Demo.runtime :=
  mkTool (PyStr "key") 0 (Demo.secs 2) (PyObj []) (PyObj []).

(** The submission of a task, answered with its id. *)
Definition create : @TranslatedTTS.sdk_method Demo.runtime :=
  fun _ w => (Ok (PyObj [("task_id", PyStr "t-1")]), w).

(** A runtime whose translation endpoint streams its answer in two
    chunks, a string and an object with a text. *)
Definition streaming : Runtime := {|
  pyfloat := Z;
  int_mul_float := Z.mul;
  float_str := fun x => (int_str x ++ ".0")%string;
  py_repr := fun _ => "<object>";
  World := Demo.world;
  elapse := fun d w =>
    Demo.mkWorld (Demo.clock w + Z.max 0 d) (Demo.fetched w) (Demo.files w);
  time_sleep_error := fun d =>
    if 0 <=? d then None else Some Demo.sleep_rejected;
  asyncio_sleep_error := fun _ => None;
  http_get := fun _ _ w =>
    (Raise connection_error, w);
  temp_stem := fun w => ("/tmp/tmp", w);
  write_file := fun name data w =>
    Demo.mkWorld (Demo.clock w) (Demo.fetched w)
      ((name, data) :: Demo.files w);
  translation_stream := fun _ w =>
    (Ok (PyList [PyStr "Ho"; PyObj [("text", PyStr "la")]]), w);
  translation_stream_async := fun _ w =>
    (Raise connection_error, w)
|}.

Definition toolkit : @Config.CambToolkit Demo.runtime :=
  Config.mkToolkit PyNone PyNone (Demo.secs 60)
    true false true false true false false false.

(** A stand-in for [json.dumps]. *)
Definition dumps (v : pyval) : outcome string :=
  match v with
  | PyList items =>
      Ok ("list of " ++ int_str (Z.of_nat (List.length items)))%string
  | PyDict entries => Ok (String.concat "," (map fst entries))
  | _ => Ok "value"
  end.

Definition separation_result : pyval :=
  PyObj [("vocals_url", PyStr "https://cdn/v.wav");
         ("voice_url", PyStr "https://cdn/voice.wav");
         ("background", PyStr "https://cdn/b.wav")].


End Scenario.

(** * Properties *)

(** ** Python values *)

Example assoc_first :
  assoc "a" [("a", PyInt 1); ("a", PyInt 2)] = Some (PyInt 1).
Proof. reflexivity. Qed.

Example int_str_neg : int_str (-42) = "-42" /\ int_str 0 = "0".
Proof. split; reflexivity. Qed.

Example lower_mixed : str_lower "Audio/WAV" = "audio/wav".
Proof. reflexivity. Qed.

Example contains_mid : str_contains "mp3" "audio/mp3; q=1" = true.
Proof. reflexivity. Qed.

Example b64_man : b64encode (b "Man") = "TWFu" /\ b64encode (b "Ma") = "TWE="
                  /\ b64encode (b "M") = "TQ==".
Proof. repeat split; reflexivity. Qed.

Example demo_poll_success :
  _poll_task_status Demo.tool (Demo.scripted [Demo.pending] Demo.completed)
    "t-1" None Demo.w0
  = (Ok Demo.completed, Demo.mkWorld 2 2 [],
     [EvGetStatus "t-1" None; EvAsyncioSleep (Demo.secs 2);
      EvGetStatus "t-1" None]).
Proof. reflexivity. Qed.

Example demo_poll_timeout :
  _poll_task_status_sync Demo.tool (Demo.scripted [] Demo.pending)
    "t-1" None Demo.w0
  = (Raise (TimeoutError "Task t-1 did not complete within 6.0 seconds"),
     Demo.mkWorld 6 3 [],
     [EvGetStatus "t-1" None; EvTimeSleep (Demo.secs 2);
      EvGetStatus "t-1" None; EvTimeSleep (Demo.secs 2);
      EvGetStatus "t-1" None; EvTimeSleep (Demo.secs 2)]).
Proof. reflexivity. Qed.

(** ** The effect monad *)

Section MonadLaws.

Context {rt : Runtime}.

Lemma logged_nil {A} (res : outcome A * World * list event) :
  logged [] res = res.
Proof. now destruct res as [[r w] t]. Qed.

Lemma bind_ret {A B} (a : A) (k : A -> M B) (w : World) :
  bind (ret a) k w = k a w.
Proof. unfold bind, ret. now destruct (k a w) as [[r w2] t2]. Qed.

Lemma bind_raise {A B} (e : pyexn) (k : A -> M B) (w : World) :
  bind (raise e) k w = (Raise e, w, []).
Proof. reflexivity. Qed.

Lemma bind_lift {A B} (r : outcome A) (k : A -> M B) (w : World) :
  bind (lift r) k w
  = match r with Ok a => k a w | Raise e => (Raise e, w, []) end.
Proof.
  unfold bind, lift. destruct r; [|reflexivity].
  now destruct (k a w) as [[r w2] t2].
Qed.

Lemma bind_call_ok {A B} (ev : event) (f : World -> outcome A * World)
    (k : A -> M B) (w w1 : World) (a : A) :
  f w = (Ok a, w1) ->
  bind (call ev f) k w = logged [ev] (k a w1).
Proof. intros H. unfold bind, call. rewrite H. reflexivity. Qed.

Lemma bind_call_raise {A B} (ev : event) (f : World -> outcome A * World)
    (k : A -> M B) (w w1 : World) (e : pyexn) :
  f w = (Raise e, w1) ->
  bind (call ev f) k w = (Raise e, w1, [ev]).
Proof. intros H. unfold bind, call. rewrite H. reflexivity. Qed.

Lemma bind_assoc {A B C} (m : M A) (k : A -> M B) (h : B -> M C) (w : World) :
  bind (bind m k) h w = bind m (fun a => bind (k a) h) w.
Proof.
  unfold bind. destruct (m w) as [[[a|e] w1] t1]; [|reflexivity].
  destruct (k a w1) as [[[x|e] w2] t2]; [|reflexivity].
  destruct (h x w2) as [[r w3] t3]. now rewrite app_assoc.
Qed.

Lemma bind_asyncio_sleep {B} (d : pyfloat) (k : unit -> M B) (w : World) :
  bind (asyncio_sleep d) k w
  = match asyncio_sleep_error d with
    | None => logged [EvAsyncioSleep d] (k tt (elapse d w))
    | Some e => (Raise e, w, [])
    end.
Proof.
  unfold asyncio_sleep. destruct (asyncio_sleep_error d).
  - reflexivity.
  - now apply bind_call_ok.
Qed.

Lemma bind_time_sleep {B} (d : pyfloat) (k : unit -> M B) (w : World) :
  bind (time_sleep d) k w
  = match time_sleep_error d with
    | None => logged [EvTimeSleep d] (k tt (elapse d w))
    | Some e => (Raise e, w, [])
    end.
Proof.
  unfold time_sleep. destruct (time_sleep_error d).
  - reflexivity.
  - now apply bind_call_ok.
Qed.

End MonadLaws.

(** ** The task poller *)

Section Poller.

Context {rt : Runtime}.

(** How the code's probes ([hasattr], attribute access, [in]) read a
    payload, in terms of its status field. *)
Lemma status_present (st v : pyval) :
  get_attr st "status" = Some v ->
  hasattr st "status" = true /\ getattr st "status" PyNone = v.
Proof.
  intros H. unfold getattr. rewrite H. split; [|reflexivity].
  destruct st; simpl in H; try discriminate.
  unfold hasattr, get_attr. now rewrite H.
Qed.

Lemma status_absent (st : pyval) :
  get_attr st "status" = None -> hasattr st "status" = false.
Proof.
  intros H. destruct st; try reflexivity.
  unfold hasattr. now rewrite H.
Qed.

Lemma status_field_in_probe (st v : pyval) (names : list string) :
  get_attr st "status" = Some v ->
  status_field_in st names = py_in v names.
Proof.
  intros H. unfold status_field_in. rewrite H. now destruct v.
Qed.

(** The three ways one inspection can go. *)
Lemma probe_success (st : pyval) :
  success_status st = true ->
  hasattr st "status" = true
  /\ py_in (getattr st "status" PyNone) ["completed"; "SUCCESS"] = true.
Proof.
  unfold success_status. intros H.
  destruct (get_attr st "status") as [v|] eqn:E.
  - destruct (status_present _ _ E) as [Hh Hg].
    rewrite Hg, <- (status_field_in_probe _ _ _ E). auto.
  - unfold status_field_in in H. rewrite E in H. discriminate.
Qed.

Lemma success_excludes_failure (v : pyval) :
  py_in v ["failed"; "FAILED"; "error"] = true ->
  py_in v ["completed"; "SUCCESS"] = false.
Proof.
  destruct v; simpl; try discriminate.
  intros H.
  repeat match type of H with
         | (_ || _) = true => apply orb_true_iff in H; destruct H as [H|H]
         end;
    try discriminate; apply String.eqb_eq in H; subst; reflexivity.
Qed.

Lemma probe_failure (st : pyval) :
  failure_status st = true ->
  hasattr st "status" = true
  /\ py_in (getattr st "status" PyNone) ["completed"; "SUCCESS"] = false
  /\ py_in (getattr st "status" PyNone) ["failed"; "FAILED"; "error"] = true.
Proof.
  unfold failure_status. intros H.
  destruct (get_attr st "status") as [v|] eqn:E.
  - destruct (status_present _ _ E) as [Hh Hg].
    rewrite Hg. rewrite (status_field_in_probe _ _ _ E) in H.
    auto using success_excludes_failure.
  - unfold status_field_in in H. rewrite E in H. discriminate.
Qed.

Lemma probe_pending (st : pyval) :
  terminal_status st = false ->
  hasattr st "status" = false
  \/ (hasattr st "status" = true
      /\ py_in (getattr st "status" PyNone) ["completed"; "SUCCESS"] = false
      /\ py_in (getattr st "status" PyNone) ["failed"; "FAILED"; "error"]
         = false).
Proof.
  unfold terminal_status, success_status, failure_status. intros H.
  apply orb_false_iff in H. destruct H as [Hs Hf].
  destruct (get_attr st "status") as [v|] eqn:E.
  - right. destruct (status_present _ _ E) as [Hh Hg].
    rewrite Hg, <- !(status_field_in_probe _ _ _ E). auto.
  - left. now apply status_absent.
Qed.

(** One round of either loop, run on a known answer of the status
    function: the probes are settled from what is known of the payload. *)
Ltac settle_probe :=
  repeat match goal with
         | H : hasattr _ _ = _ |- _ => rewrite H; clear H
         | H : py_in _ _ = _ |- _ => rewrite H; clear H
         end.

Ltac run_round Hfetch :=
  cbn [for_range]; rewrite bind_assoc, (bind_call_ok _ _ _ _ _ _ Hfetch);
  rewrite bind_assoc; settle_probe; cbv beta zeta.

Ltac finish_round :=
  repeat (rewrite ?bind_ret, ?bind_raise, ?bind_assoc,
                  ?bind_asyncio_sleep, ?bind_time_sleep; cbv beta iota).

Ltac pending_round Hfetch Hpending :=
  destruct (probe_pending _ Hpending) as [?Hh | (?Hh & ?Hs & ?Hf)];
  run_round Hfetch; finish_round.

Lemma async_poll_success (self : CambBaseTool) (f : status_fn)
    (tid : string) (rid : option Z) (k : nat) (w w1 w2 : World) (st : pyval) :
  pending_run f tid rid (poll_interval self) k w w1 ->
  ((0 < k)%nat -> asyncio_sleep_error (poll_interval self) = None) ->
  f tid rid w1 = (Ok st, w2) ->
  success_status st = true ->
  (k < range_len (max_poll_attempts self))%nat ->
  _poll_task_status self f tid rid w
  = (Ok st, w2,
     pending_log EvAsyncioSleep tid rid (poll_interval self) k
     ++ [EvGetStatus tid rid]).
Proof.
  intros Hrun Hok Hf Hs. unfold _poll_task_status.
  generalize (range_len (max_poll_attempts self)) as n.
  induction Hrun as [w|k w st0 w1 w' Hf0 Hp Hrun IH]; intros n Hlt.
  - destruct n as [|n]; [lia|].
    destruct (probe_success _ Hs) as [Hh Hin].
    run_round Hf. finish_round. reflexivity.
  - destruct n as [|n]; [lia|].
    pose proof (Hok (Nat.lt_0_succ k)) as Hacc.
    pending_round Hf0 Hp; rewrite Hacc;
      (rewrite IH by (auto; lia)); reflexivity.
Qed.

Lemma sync_poll_success (self : CambBaseTool) (f : status_fn)
    (tid : string) (rid : option Z) (k : nat) (w w1 w2 : World) (st : pyval) :
  pending_run f tid rid (poll_interval self) k w w1 ->
  ((0 < k)%nat -> time_sleep_error (poll_interval self) = None) ->
  f tid rid w1 = (Ok st, w2) ->
  success_status st = true ->
  (k < range_len (max_poll_attempts self))%nat ->
  _poll_task_status_sync self f tid rid w
  = (Ok st, w2,
     pending_log EvTimeSleep tid rid (poll_interval self) k
     ++ [EvGetStatus tid rid]).
Proof.
  intros Hrun Hok Hf Hs. unfold _poll_task_status_sync.
  generalize (range_len (max_poll_attempts self)) as n.
  induction Hrun as [w|k w st0 w1 w' Hf0 Hp Hrun IH]; intros n Hlt.
  - destruct n as [|n]; [lia|].
    destruct (probe_success _ Hs) as [Hh Hin].
    run_round Hf. finish_round. reflexivity.
  - destruct n as [|n]; [lia|].
    pose proof (Hok (Nat.lt_0_succ k)) as Hacc.
    pending_round Hf0 Hp; rewrite Hacc;
      (rewrite IH by (auto; lia)); reflexivity.
Qed.

Lemma async_poll_failure (self : CambBaseTool) (f : status_fn)
    (tid : string) (rid : option Z) (k : nat) (w w1 w2 : World) (st : pyval) :
  pending_run f tid rid (poll_interval self) k w w1 ->
  ((0 < k)%nat -> asyncio_sleep_error (poll_interval self) = None) ->
  f tid rid w1 = (Ok st, w2) ->
  failure_status st = true ->
  (k < range_len (max_poll_attempts self))%nat ->
  _poll_task_status self f tid rid w
  = (Raise (RuntimeError
       ("Task failed: "
        ++ py_str (getattr st "error" (PyStr "Unknown error")))%string),
     w2,
     pending_log EvAsyncioSleep tid rid (poll_interval self) k
     ++ [EvGetStatus tid rid]).
Proof.
  intros Hrun Hok Hf Hs. unfold _poll_task_status.
  generalize (range_len (max_poll_attempts self)) as n.
  induction Hrun as [w|k w st0 w1 w' Hf0 Hp Hrun IH]; intros n Hlt.
  - destruct n as [|n]; [lia|].
    destruct (probe_failure _ Hs) as (Hh & Hin & Hin').
    run_round Hf. finish_round. reflexivity.
  - destruct n as [|n]; [lia|].
    pose proof (Hok (Nat.lt_0_succ k)) as Hacc.
    pending_round Hf0 Hp; rewrite Hacc;
      (rewrite IH by (auto; lia)); reflexivity.
Qed.

Lemma sync_poll_failure (self : CambBaseTool) (f : status_fn)
    (tid : string) (rid : option Z) (k : nat) (w w1 w2 : World) (st : pyval) :
  pending_run f tid rid (poll_interval self) k w w1 ->
  ((0 < k)%nat -> time_sleep_error (poll_interval self) = None) ->
  f tid rid w1 = (Ok st, w2) ->
  failure_status st = true ->
  (k < range_len (max_poll_attempts self))%nat ->
  _poll_task_status_sync self f tid rid w
  = (Raise (RuntimeError
       ("Task failed: "
        ++ py_str (getattr st "error" (PyStr "Unknown error")))%string),
     w2,
     pending_log EvTimeSleep tid rid (poll_interval self) k
     ++ [EvGetStatus tid rid]).
Proof.
  intros Hrun Hok Hf Hs. unfold _poll_task_status_sync.
  generalize (range_len (max_poll_attempts self)) as n.
  induction Hrun as [w|k w st0 w1 w' Hf0 Hp Hrun IH]; intros n Hlt.
  - destruct n as [|n]; [lia|].
    destruct (probe_failure _ Hs) as (Hh & Hin & Hin').
    run_round Hf. finish_round. reflexivity.
  - destruct n as [|n]; [lia|].
    pose proof (Hok (Nat.lt_0_succ k)) as Hacc.
    pending_round Hf0 Hp; rewrite Hacc;
      (rewrite IH by (auto; lia)); reflexivity.
Qed.



(** A delay the sleep does not take ends the loop at its first pending
    round: what the sleep raises is raised after that one fetch. *)
Lemma async_poll_rejected_delay (self : CambBaseTool) (f : status_fn)
    (tid : string) (rid : option Z) (w w1 : World) (st : pyval) (e : pyexn) :
  f tid rid w = (Ok st, w1) ->
  terminal_status st = false ->
  asyncio_sleep_error (poll_interval self) = Some e ->
  (0 < range_len (max_poll_attempts self))%nat ->
  _poll_task_status self f tid rid w
  = (Raise e, w1, [EvGetStatus tid rid]).
Proof.
  intros Hf Hp Hacc. unfold _poll_task_status.
  generalize (range_len (max_poll_attempts self)) as n.
  intros n Hn. destruct n as [|n]; [lia|].
  pending_round Hf Hp; rewrite Hacc; reflexivity.
Qed.

Lemma sync_poll_rejected_delay (self : CambBaseTool) (f : status_fn)
    (tid : string) (rid : option Z) (w w1 : World) (st : pyval) (e : pyexn) :
  f tid rid w = (Ok st, w1) ->
  terminal_status st = false ->
  time_sleep_error (poll_interval self) = Some e ->
  (0 < range_len (max_poll_attempts self))%nat ->
  _poll_task_status_sync self f tid rid w
  = (Raise e, w1, [EvGetStatus tid rid]).
Proof.
  intros Hf Hp Hacc. unfold _poll_task_status_sync.
  generalize (range_len (max_poll_attempts self)) as n.
  intros n Hn. destruct n as [|n]; [lia|].
  pending_round Hf Hp; rewrite Hacc; reflexivity.
Qed.




(** What a pending log holds. *)
Lemma fetch_count_pending_log (sleep : pyfloat -> event) (tid : string)
    (rid : option Z) (d : pyfloat) (k : nat) :
  is_fetch (sleep d) = false ->
  fetch_count (pending_log sleep tid rid d k) = k.
Proof.
  intros Hs. unfold fetch_count.
  induction k as [|k IH]; [reflexivity|].
  cbn [pending_log filter is_fetch]. rewrite Hs. cbn [List.length].
  now rewrite IH.
Qed.

Lemma slept_pending_log_async (tid : string) (rid : option Z) (d : pyfloat)
    (k : nat) :
  slept (pending_log EvAsyncioSleep tid rid d k) = repeat d k.
Proof. induction k as [|k IH]; [reflexivity|]. simpl. now rewrite IH. Qed.

Lemma slept_pending_log_sync (tid : string) (rid : option Z) (d : pyfloat)
    (k : nat) :
  slept (pending_log EvTimeSleep tid rid d k) = repeat d k.
Proof. induction k as [|k IH]; [reflexivity|]. simpl. now rewrite IH. Qed.


(** The two loops, round for round. *)
Lemma forget_logged {A} (t0 : list event)
    (res : outcome A * World * list event) :
  forget_sleep_kinds (logged t0 res)
  = logged (map forget_sleep_kind t0) (forget_sleep_kinds res).
Proof. destruct res as [[r w] t]. simpl. now rewrite map_app. Qed.

Lemma sync_poll_read_cooperatively (self : CambBaseTool) (f : status_fn)
    (tid : string) (rid : option Z) (w : World) :
  time_sleep_error (poll_interval self) = None ->
  asyncio_sleep_error (poll_interval self) = None ->
  forget_sleep_kinds (_poll_task_status_sync self f tid rid w)
  = _poll_task_status self f tid rid w.
Proof.
  intros Hblocking Hsuspending.
  unfold _poll_task_status_sync, _poll_task_status.
  generalize (range_len (max_poll_attempts self)) as n.
  intros n. revert w.
  induction n as [|n IH]; intros w; [reflexivity|].
  cbn [for_range]. rewrite !bind_assoc.
  destruct (f tid rid w) as [[st|e] w1] eqn:Hf.
  - rewrite !(bind_call_ok _ _ _ _ _ _ Hf), !bind_assoc.
    rewrite forget_logged.
    destruct (hasattr st "status");
      [destruct (py_in (getattr st "status" PyNone) ["completed"; "SUCCESS"]);
       [|destruct (py_in (getattr st "status" PyNone)
                         ["failed"; "FAILED"; "error"])]|];
      finish_round;
      rewrite ?Hblocking, ?Hsuspending, ?forget_logged, ?IH; reflexivity.
  - rewrite !(bind_call_raise _ _ _ _ _ _ Hf). reflexivity.
Qed.

Lemma fetches_survive_forgetting (t : list event) :
  filter is_fetch (map forget_sleep_kind t) = filter is_fetch t.
Proof.
  induction t as [|ev t IH]; [reflexivity|].
  destruct ev; simpl; now rewrite IH.
Qed.

(** C1: a payload whose status field is "completed" or "SUCCESS" ends the
    poll on the spot, in both variants: after any number [k] of pending
    rounds within the attempt budget, each of them slept through (which
    asks, when there is such a round, that the variant's sleep takes the
    interval), the loop returns that very payload, leaves the world as
    the fetch left it, and its log ends with the fetch that saw the
    payload: no further fetch, no further sleep. *)
Theorem poll_returns_on_success (self : CambBaseTool) (f : status_fn)
    (tid : string) (rid : option Z) (k : nat) (w w1 w2 : World) (st : pyval) :
  pending_run f tid rid (poll_interval self) k w w1 ->
  f tid rid w1 = (Ok st, w2) ->
  success_status st = true ->
  (k < range_len (max_poll_attempts self))%nat ->
  (((0 < k)%nat -> asyncio_sleep_error (poll_interval self) = None) ->
   _poll_task_status self f tid rid w
   = (Ok st, w2,
      pending_log EvAsyncioSleep tid rid (poll_interval self) k
      ++ [EvGetStatus tid rid]))
  /\ (((0 < k)%nat -> time_sleep_error (poll_interval self) = None) ->
      _poll_task_status_sync self f tid rid w
      = (Ok st, w2,
         pending_log EvTimeSleep tid rid (poll_interval self) k
         ++ [EvGetStatus tid rid])).
Proof.
  intros Hrun Hf Hs Hlt. split; intros Hok.
  - eapply async_poll_success; eauto.
  - eapply sync_poll_success; eauto.
Qed.

(** C2: a payload whose status field is "failed", "FAILED" or "error"
    makes both variants raise at once: a [RuntimeError] whose message is
    "Task failed: " followed by the text of the payload's error field, or
    by "Unknown error" when the payload has none; the log ends with the
    fetch that saw the payload, so nothing is retried.  The pending
    rounds before it, when there are any, are slept through, which asks
    that the variant's sleep takes the interval. *)
Theorem poll_raises_on_failure (self : CambBaseTool) (f : status_fn)
    (tid : string) (rid : option Z) (k : nat) (w w1 w2 : World) (st : pyval) :
  pending_run f tid rid (poll_interval self) k w w1 ->
  f tid rid w1 = (Ok st, w2) ->
  failure_status st = true ->
  (k < range_len (max_poll_attempts self))%nat ->
  let error_text :=
    match get_attr st "error" with
    | Some e => py_str e
    | None => "Unknown error"
    end in
  (((0 < k)%nat -> asyncio_sleep_error (poll_interval self) = None) ->
   _poll_task_status self f tid rid w
   = (Raise (RuntimeError ("Task failed: " ++ error_text)%string), w2,
      pending_log EvAsyncioSleep tid rid (poll_interval self) k
      ++ [EvGetStatus tid rid]))
  /\ (((0 < k)%nat -> time_sleep_error (poll_interval self) = None) ->
      _poll_task_status_sync self f tid rid w
      = (Raise (RuntimeError ("Task failed: " ++ error_text)%string), w2,
         pending_log EvTimeSleep tid rid (poll_interval self) k
         ++ [EvGetStatus tid rid])).
Proof.
  intros Hrun Hf Hs Hlt error_text.
  assert (Htext : py_str (getattr st "error" (PyStr "Unknown error"))
                  = error_text).
  { unfold error_text, getattr. now destruct (get_attr st "error"). }
  rewrite <- Htext. split; intros Hok.
  - eapply async_poll_failure; eauto.
  - eapply sync_poll_failure; eauto.
Qed.


(** C7, as the code has it: for an interval that both [time.sleep] and
    [asyncio.sleep] take, the blocking and the suspend-capable poller do
    the same thing.  For every such tool configuration, status function,
    task id, run id and starting world they end with the same result (the
    same payload returned or the same exception raised), leave the same
    world, make the same fetches in the same order, and their logs are
    equal once the kind of each sleep is forgotten. *)
Theorem pollers_agree (self : CambBaseTool) (f : status_fn)
    (tid : string) (rid : option Z) (w : World) :
  time_sleep_error (poll_interval self) = None ->
  asyncio_sleep_error (poll_interval self) = None ->
  let blocking := _poll_task_status_sync self f tid rid w in
  let suspending := _poll_task_status self f tid rid w in
  fst (fst blocking) = fst (fst suspending)
  /\ snd (fst blocking) = snd (fst suspending)
  /\ map forget_sleep_kind (snd blocking) = snd suspending
  /\ filter is_fetch (snd blocking) = filter is_fetch (snd suspending).
Proof.
  intros Hblocking Hsuspending blocking suspending.
  pose proof (sync_poll_read_cooperatively self f tid rid w
                Hblocking Hsuspending) as H.
  fold blocking suspending in H.
  destruct blocking as [[r1 w1] t1], suspending as [[r2 w2] t2].
  simpl in *. inversion H; subst.
  repeat split. symmetry. apply fetches_survive_forgetting.
Qed.


End Poller.

Lemma poll_returns_on_success_witness :
  _poll_task_status Demo.tool (Demo.scripted [Demo.pending] Demo.completed)
    "t-1" None Demo.w0
  = (Ok Demo.completed, Demo.mkWorld 2 2 [],
     [EvGetStatus "t-1" None; EvAsyncioSleep (Demo.secs 2);
      EvGetStatus "t-1" None])
  /\ _poll_task_status_sync Demo.tool
       (Demo.scripted [Demo.pending] Demo.completed) "t-1" None Demo.w0
     = (Ok Demo.completed, Demo.mkWorld 2 2 [],
        [EvGetStatus "t-1" None; EvTimeSleep (Demo.secs 2);
         EvGetStatus "t-1" None]).
Proof.
  destruct (poll_returns_on_success Demo.tool
              (Demo.scripted [Demo.pending] Demo.completed) "t-1" None
              1 Demo.w0 (Demo.mkWorld 2 1 []) (Demo.mkWorld 2 2 [])
              Demo.completed) as [Hsuspending Hblocking].
  - eapply pending_cons; [reflexivity | reflexivity | apply pending_nil].
  - reflexivity.
  - reflexivity.
  - vm_compute. lia.
  - split.
    + exact (Hsuspending (fun _ => eq_refl)).
    + exact (Hblocking (fun _ => eq_refl)).
Defined.

Lemma poll_raises_on_failure_witness :
  _poll_task_status Demo.tool (Demo.scripted [Demo.pending] Demo.failed)
    "t-1" None Demo.w0
  = (Raise (RuntimeError "Task failed: quota exceeded"), Demo.mkWorld 2 2 [],
     [EvGetStatus "t-1" None; EvAsyncioSleep (Demo.secs 2);
      EvGetStatus "t-1" None])
  /\ _poll_task_status_sync Demo.tool
       (Demo.scripted [Demo.pending] Demo.failed) "t-1" None Demo.w0
     = (Raise (RuntimeError "Task failed: quota exceeded"),
        Demo.mkWorld 2 2 [],
        [EvGetStatus "t-1" None; EvTimeSleep (Demo.secs 2);
         EvGetStatus "t-1" None]).
Proof.
  destruct (poll_raises_on_failure Demo.tool
              (Demo.scripted [Demo.pending] Demo.failed) "t-1" None
              1 Demo.w0 (Demo.mkWorld 2 1 []) (Demo.mkWorld 2 2 [])
              Demo.failed) as [Hsuspending Hblocking].
  - eapply pending_cons; [reflexivity | reflexivity | apply pending_nil].
  - reflexivity.
  - reflexivity.
  - vm_compute. lia.
  - split.
    + exact (Hsuspending (fun _ => eq_refl)).
    + exact (Hblocking (fun _ => eq_refl)).
Defined.

Example poll_failure_without_error_field :
  fst (fst (_poll_task_status Demo.tool (Demo.scripted [] Demo.failed_bare)
              "t-1" None Demo.w0))
  = Raise (RuntimeError "Task failed: Unknown error").
Proof. reflexivity. Qed.



Lemma pollers_agree_witness :
  let blocking :=
    _poll_task_status_sync Demo.tool
      (Demo.scripted [Demo.pending] Demo.completed) "t-1" None Demo.w0 in
  let suspending :=
    _poll_task_status Demo.tool
      (Demo.scripted [Demo.pending] Demo.completed) "t-1" None Demo.w0 in
  fst (fst blocking) = fst (fst suspending)
  /\ snd (fst blocking) = snd (fst suspending)
  /\ map forget_sleep_kind (snd blocking) = snd suspending
  /\ filter is_fetch (snd blocking) = filter is_fetch (snd suspending).
Proof.
  apply (pollers_agree Demo.tool
           (Demo.scripted [Demo.pending] Demo.completed) "t-1" None Demo.w0).
  - reflexivity.
  - reflexivity.
Defined.

(** The property as the specification words it, for every interval,
    fails at a negative one: with three attempts, an interval of -1
    second and a task that stays pending, the blocking poller raises the
    [ValueError] of [time.sleep] after one fetch, and the suspending
    poller, whose [asyncio.sleep] takes the delay, raises the
    [TimeoutError] after three. *)
Lemma pollers_differ_at_negative_interval :
  let blocking :=
    _poll_task_status_sync Demo.negative_interval_tool
      (Demo.scripted [] Demo.pending) "t-1" None Demo.w0 in
  let suspending :=
    _poll_task_status Demo.negative_interval_tool
      (Demo.scripted [] Demo.pending) "t-1" None Demo.w0 in
  fst (fst blocking)
  = Raise (OtherError "ValueError" "sleep length must be non-negative")
  /\ fst (fst suspending)
     = Raise (TimeoutError "Task t-1 did not complete within -3.0 seconds")
  /\ fst (fst blocking) <> fst (fst suspending)
  /\ fetch_count (snd blocking) = 1%nat
  /\ fetch_count (snd suspending) = 3%nat
  /\ filter is_fetch (snd blocking) <> filter is_fetch (snd suspending).
Proof. repeat split; discriminate. Qed.



(** ** Format detection *)

Lemma bytes_startswith_spec (pre data : list byte) :
  bytes_startswith data pre = true <-> starts_with data pre.
Proof.
  unfold starts_with. revert data.
  induction pre as [|p pre IH]; intros data; simpl.
  - split; [intros _; now exists data | reflexivity].
  - destruct data as [|d data].
    + split; [discriminate | intros [rest H]; discriminate].
    + rewrite andb_true_iff, IH. split.
      * intros [Hp [rest ->]].
        apply Byte.byte_dec_bl in Hp. subst. now exists rest.
      * intros [rest H]. inversion H; subst. split.
        -- apply Byte.byte_dec_lb. reflexivity.
        -- now exists rest.
Qed.

Lemma str_startswith_spec (pre s : string) :
  str_startswith s pre = true <-> exists rest, s = (pre ++ rest)%string.
Proof.
  revert s. induction pre as [|p pre IH]; intros s; simpl.
  - split; [intros _; now exists s | reflexivity].
  - destruct s as [|c s].
    + split; [discriminate | intros [rest H]; discriminate].
    + rewrite andb_true_iff, IH, Ascii.eqb_eq. split.
      * intros [-> [rest ->]]. now exists rest.
      * intros [rest H]. inversion H; subst. split; [reflexivity|].
        now exists rest.
Qed.

Lemma str_contains_spec (sub s : string) :
  str_contains sub s = true
  <-> exists pre post, s = (pre ++ sub ++ post)%string.
Proof.
  induction s as [|c s IH].
  - cbn [str_contains]. rewrite orb_false_r, str_startswith_spec. split.
    + intros [rest H]. now exists ""%string, rest.
    + intros (pre & post & H). destruct pre; [|discriminate].
      now exists post.
  - cbn [str_contains]. rewrite orb_true_iff, str_startswith_spec, IH. split.
    + intros [[rest H] | (pre & post & H)].
      * now exists ""%string, rest.
      * exists (String c pre), post. simpl. now rewrite H.
    + intros (pre & post & H). destruct pre as [|c' pre].
      * left. now exists post.
      * right. simpl in H. inversion H; subst. now exists pre, post.
Qed.

Lemma str_lower_app (s t : string) :
  str_lower (s ++ t) = (str_lower s ++ str_lower t)%string.
Proof. induction s as [|c s IH]; simpl; [reflexivity | now rewrite IH]. Qed.

Lemma str_lower_split (s x y : string) :
  str_lower s = (x ++ y)%string ->
  exists x' y', s = (x' ++ y')%string /\ str_lower x' = x /\ str_lower y' = y.
Proof.
  revert s. induction x as [|c x IH]; intros s H.
  - exists ""%string, s. auto.
  - destruct s as [|c' s]; [discriminate|].
    simpl in H. inversion H as [[Hc Hs]].
    destruct (IH _ Hs) as (x' & y' & -> & Hx & Hy).
    exists (String c' x'), y'. simpl. rewrite Hx. auto.
Qed.

Lemma str_contains_lower_spec (word text : string) :
  str_contains word (str_lower text) = true <-> mentions text word.
Proof.
  rewrite str_contains_spec. unfold mentions. split.
  - intros (pre & post & H).
    destruct (str_lower_split _ _ _ H) as (pre' & rest & -> & Hpre & Hrest).
    destruct (str_lower_split _ _ _ Hrest) as (mid & post' & -> & Hmid & Hpost).
    now exists pre', mid, post'.
  - intros (pre & mid & post & -> & Hmid).
    exists (str_lower pre), (str_lower post).
    now rewrite !str_lower_app, Hmid.
Qed.

Lemma str_contains_lower_false (word text : string) :
  ~ mentions text word -> str_contains word (str_lower text) = false.
Proof.
  intros H. destruct (str_contains word (str_lower text)) eqn:E;
    [|reflexivity].
  now apply str_contains_lower_spec in E.
Qed.

Lemma mentions_refuted (word text : string) :
  str_contains word (str_lower text) = false -> ~ mentions text word.
Proof.
  intros E H. apply str_contains_lower_spec in H. congruence.
Qed.

Lemma bytes_startswith_false (pre data : list byte) :
  ~ starts_with data pre -> bytes_startswith data pre = false.
Proof.
  intros H. destruct (bytes_startswith data pre) eqn:E; [|reflexivity].
  now apply bytes_startswith_spec in E.
Qed.

(** C4, as the code has it: detection looks at the content first and at
    the header second.  Data that begins with RIFF is wav, with fLaC
    flac, with OggS ogg, and with ID3 or with one of the two frame-sync
    byte pairs FF FB and FF FA mp3, whatever the content type says.  Only
    when none of these begins the data is the content type read, without
    regard to case: one that mentions wav or wave gives wav; else one
    that mentions mpeg or mp3 gives mp3; else flac gives flac; else ogg
    gives ogg; and when the content type mentions none of them the
    result is pcm. *)
Theorem detect_audio_format_content_first (audio_data : list byte)
    (content_type : string) :
  let detected := _detect_audio_format audio_data content_type in
  (starts_with audio_data (b "RIFF") -> detected = "wav")
  /\ (starts_with audio_data (b "fLaC") -> detected = "flac")
  /\ (starts_with audio_data (b "OggS") -> detected = "ogg")
  /\ (starts_with audio_data (b "ID3")
      \/ starts_with audio_data [xff; xfb]
      \/ starts_with audio_data [xff; xfa] -> detected = "mp3")
  /\ (no_magic audio_data ->
      (mentions content_type "wav" \/ mentions content_type "wave" ->
       detected = "wav")
      /\ (~ mentions content_type "wav" -> ~ mentions content_type "wave" ->
          mentions content_type "mpeg" \/ mentions content_type "mp3" ->
          detected = "mp3")
      /\ (~ mentions content_type "wav" -> ~ mentions content_type "wave" ->
          ~ mentions content_type "mpeg" -> ~ mentions content_type "mp3" ->
          mentions content_type "flac" -> detected = "flac")
      /\ (~ mentions content_type "wav" -> ~ mentions content_type "wave" ->
          ~ mentions content_type "mpeg" -> ~ mentions content_type "mp3" ->
          ~ mentions content_type "flac" ->
          mentions content_type "ogg" -> detected = "ogg")
      /\ (~ mentions content_type "wav" -> ~ mentions content_type "wave" ->
          ~ mentions content_type "mpeg" -> ~ mentions content_type "mp3" ->
          ~ mentions content_type "flac" -> ~ mentions content_type "ogg" ->
          detected = "pcm")).
Proof.
  intros detected. unfold detected, _detect_audio_format.
  repeat split.
  - intros [rest ->]. reflexivity.
  - intros [rest ->]. reflexivity.
  - intros [rest ->]. reflexivity.
  - intros [[rest ->] | [[rest ->] | [rest ->]]]; reflexivity.
  - destruct H as (H1 & H2 & H3 & H4 & H5 & H6).
    rewrite !bytes_startswith_false by assumption. cbn [orb].
    cbv zeta. intros [Hm | Hm];
      apply str_contains_lower_spec in Hm; rewrite Hm;
      rewrite ?orb_true_r; reflexivity.
  - destruct H as (H1 & H2 & H3 & H4 & H5 & H6).
    rewrite !bytes_startswith_false by assumption. cbn [orb].
    cbv zeta. intros Hw Hwave Hm.
    rewrite !str_contains_lower_false by assumption. cbn [orb].
    destruct Hm as [Hm | Hm];
      apply str_contains_lower_spec in Hm; rewrite Hm;
      rewrite ?orb_true_r; reflexivity.
  - destruct H as (H1 & H2 & H3 & H4 & H5 & H6).
    rewrite !bytes_startswith_false by assumption. cbn [orb].
    cbv zeta. intros Hw Hwave Hmpeg Hmp3 Hm.
    rewrite !str_contains_lower_false by assumption. cbn [orb].
    apply str_contains_lower_spec in Hm. now rewrite Hm.
  - destruct H as (H1 & H2 & H3 & H4 & H5 & H6).
    rewrite !bytes_startswith_false by assumption. cbn [orb].
    cbv zeta. intros Hw Hwave Hmpeg Hmp3 Hflac Hm.
    rewrite !str_contains_lower_false by assumption. cbn [orb].
    apply str_contains_lower_spec in Hm. now rewrite Hm.
  - destruct H as (H1 & H2 & H3 & H4 & H5 & H6).
    rewrite !bytes_startswith_false by assumption. cbn [orb].
    cbv zeta. intros Hw Hwave Hmpeg Hmp3 Hflac Hogg.
    rewrite !str_contains_lower_false by assumption. reflexivity.
Qed.

Lemma detect_audio_format_content_first_witness :
  _detect_audio_format (b "OggS" ++ [x00; x02]) "audio/wav" = "ogg"
  /\ _detect_audio_format [x00; x01] "Audio/X-FLAC" = "flac".
Proof.
  pose proof (detect_audio_format_content_first
                (b "OggS" ++ [x00; x02]) "audio/wav") as Hmagic.
  pose proof (detect_audio_format_content_first
                [x00; x01] "Audio/X-FLAC") as Htype.
  cbv zeta in Hmagic, Htype.
  destruct Hmagic as (_ & _ & Hogg & _).
  destruct Htype as (_ & _ & _ & _ & Htype).
  split.
  - apply Hogg. now exists [x00; x02].
  - apply Htype.
    + repeat split; intros [rest H]; discriminate H.
    + apply mentions_refuted; reflexivity.
    + apply mentions_refuted; reflexivity.
    + apply mentions_refuted; reflexivity.
    + apply mentions_refuted; reflexivity.
    + exists "Audio/X-", "FLAC", "". split; reflexivity.
Defined.

(** The property as the specification words it, MP3 frame-sync leading
    bytes give mp3 whatever the content type, fails on the frame syncs
    other than FF FB and FF FA.  An MPEG-2 layer III frame begins with
    FF F3: such data is not recognised by its content, so the content
    type decides, and without a hint the result is pcm. *)
Lemma detect_audio_format_misses_other_frame_syncs :
  _detect_audio_format [xff; xf3; x90; x00] "" = "pcm"
  /\ _detect_audio_format [xff; xf3; x90; x00] "audio/ogg" = "ogg"
  /\ _detect_audio_format [xff; xf3; x90; x00] "audio/ogg" <> "mp3"
  /\ _detect_audio_format [xff; xfb; x90; x00] "audio/ogg" = "mp3".
Proof. repeat split. discriminate. Qed.

Example detect_magic_beats_header :
  _detect_audio_format Demo.wav_bytes "audio/mpeg" = "wav"
  /\ _detect_audio_format (b "....") "Audio/MPEG" = "mp3"
  /\ _detect_audio_format (b "....") "application/octet-stream" = "pcm"
  /\ _detect_audio_format [] "audio/ogg; codecs=flac" = "flac".
Proof. repeat split; reflexivity. Qed.

(** ** The WAV header *)

Lemma Z_of_byte_of_Z (z : Z) :
  0 <= z < 256 -> Z_of_byte (byte_of_Z z) = z.
Proof.
  intros Hz. unfold Z_of_byte, byte_of_Z.
  rewrite Z.mod_small by assumption.
  destruct (Byte.of_N (Z.to_N z)) as [x|] eqn:E.
  - apply Byte.to_of_N in E. rewrite E. lia.
  - apply Byte.of_N_None_iff in E. lia.
Qed.

Lemma le_value_le_bytes (width : nat) (v : Z) :
  0 <= v < 256 ^ Z.of_nat width ->
  le_value (le_bytes width v) = v.
Proof.
  revert v. induction width as [|width IH]; intros v Hv.
  - simpl in *. lia.
  - cbn [le_bytes le_value].
    rewrite Nat2Z.inj_succ, Z.pow_succ_r in Hv by lia.
    rewrite Z_of_byte_of_Z by (apply Z.mod_pos_bound; lia).
    rewrite IH.
    + pose proof (Z.div_mod v 256). lia.
    + split; [apply Z.div_pos; lia|].
      apply Z.div_lt_upper_bound; lia.
Qed.

Lemma length_le_bytes (width : nat) (v : Z) :
  List.length (le_bytes width v) = width.
Proof.
  revert v. induction width as [|width IH]; intros v; simpl; [|rewrite IH];
    reflexivity.
Qed.

Lemma pack_I_fits (v : Z) :
  0 <= v <= 4294967295 -> pack_I v = Ok (le_bytes 4 v).
Proof.
  intros Hv. unfold pack_I.
  replace ((0 <=? v) && (v <=? 4294967295)) with true; [reflexivity|].
  symmetry. apply andb_true_iff. split; apply Z.leb_le; lia.
Qed.

Lemma pack_I_overflow (v : Z) :
  4294967295 < v -> pack_I v = Raise StructError.
Proof.
  intros Hv. unfold pack_I.
  replace (v <=? 4294967295) with false; [now rewrite andb_false_r|].
  symmetry. apply Z.leb_gt. lia.
Qed.

(** The bytes of the synthesized file, when the data fits. *)
Lemma add_wav_header_bytes (pcm_data : list byte) :
  Z.of_nat (List.length pcm_data) <= max_wav_data ->
  _add_wav_header pcm_data
  = Ok (b "RIFF" ++ le_bytes 4 (36 + Z.of_nat (List.length pcm_data))
        ++ b "WAVEfmt "
        ++ [x10; x00; x00; x00; x01; x00; x01; x00;
            xc0; x5d; x00; x00; x80; xbb; x00; x00; x02; x00; x10; x00]
        ++ b "data" ++ le_bytes 4 (Z.of_nat (List.length pcm_data))
        ++ pcm_data).
Proof.
  unfold max_wav_data. intros Hlen. unfold _add_wav_header. cbv zeta.
  set (N := Z.of_nat (List.length pcm_data)) in *.
  cbn [pack_all].
  rewrite (pack_I_fits (36 + N)), (pack_I_fits N) by lia.
  reflexivity.
Qed.

Lemma add_wav_header_too_long (pcm_data : list byte) :
  max_wav_data < Z.of_nat (List.length pcm_data) ->
  _add_wav_header pcm_data = Raise StructError.
Proof.
  unfold max_wav_data. intros Hlen. unfold _add_wav_header. cbv zeta.
  set (N := Z.of_nat (List.length pcm_data)) in *.
  cbn [pack_all].
  rewrite (pack_I_overflow (36 + N)) by lia.
  reflexivity.
Qed.

Ltac four_bytes r H :=
  destruct r as [|? [|? [|? [|? [|? ?]]]]]; try discriminate H; clear H.

(** What a reader finds in a file laid out that way, whatever the two
    size fields hold. *)
Lemma read_header_fields (r d pcm_data : list byte) :
  List.length r = 4%nat -> List.length d = 4%nat ->
  let out :=
    b "RIFF" ++ r ++ b "WAVEfmt "
    ++ [x10; x00; x00; x00; x01; x00; x01; x00;
        xc0; x5d; x00; x00; x80; xbb; x00; x00; x02; x00; x10; x00]
    ++ b "data" ++ d ++ pcm_data in
  List.length out = (List.length pcm_data + 44)%nat
  /\ skipn 44 out = pcm_data
  /\ read_wav_header (firstn 44 out)
     = {| riff_tag := b "RIFF";
          riff_size := le_value r;
          wave_tag := b "WAVE";
          fmt_tag := b "fmt ";
          fmt_size := 16;
          audio_format_code := 1;
          num_channels := 1;
          sample_rate := 24000;
          byte_rate := 48000;
          block_align := 2;
          bits_per_sample := 16;
          data_tag := b "data";
          data_size := le_value d |}.
Proof.
  intros Hr Hd. four_bytes r Hr. four_bytes d Hd.
  repeat split. simpl. now rewrite Nat.add_comm.
Qed.

Lemma add_wav_header_length (pcm_data : list byte) :
  Z.of_nat (List.length pcm_data) <= max_wav_data ->
  exists out : list byte,
    _add_wav_header pcm_data = Ok out
    /\ List.length out = (List.length pcm_data + 44)%nat.
Proof.
  intros Hlen. eexists. split; [now apply add_wav_header_bytes|].
  apply (read_header_fields _ _ pcm_data); apply length_le_bytes.
Qed.

(** C6, as the code has it: for pcm data of [N] bytes, [N] at most
    4294967259 (what the 32-bit size fields of the header can describe),
    [_add_wav_header] returns [N + 44] bytes; the first 44 are a RIFF/WAVE
    header that declares PCM samples at 24000 per second, one channel and
    16 bits per sample (with a byte rate of 48000, blocks of 2 bytes and
    the sizes [36 + N] and [N]), and what follows them is the data,
    unchanged. *)
Theorem add_wav_header_layout (pcm_data : list byte) :
  Z.of_nat (List.length pcm_data) <= max_wav_data ->
  exists out : list byte,
    _add_wav_header pcm_data = Ok out
    /\ List.length out = (List.length pcm_data + 44)%nat
    /\ skipn 44 out = pcm_data
    /\ read_wav_header (firstn 44 out)
       = {| riff_tag := b "RIFF";
            riff_size := 36 + Z.of_nat (List.length pcm_data);
            wave_tag := b "WAVE";
            fmt_tag := b "fmt ";
            fmt_size := 16;
            audio_format_code := 1;
            num_channels := 1;
            sample_rate := 24000;
            byte_rate := 48000;
            block_align := 2;
            bits_per_sample := 16;
            data_tag := b "data";
            data_size := Z.of_nat (List.length pcm_data) |}.
Proof.
  intros Hlen. eexists. split; [now apply add_wav_header_bytes|].
  unfold max_wav_data in Hlen.
  pose proof (Nat2Z.is_nonneg (List.length pcm_data)) as Hpos.
  pose proof (read_header_fields
                (le_bytes 4 (36 + Z.of_nat (List.length pcm_data)))
                (le_bytes 4 (Z.of_nat (List.length pcm_data))) pcm_data
                (length_le_bytes _ _) (length_le_bytes _ _)) as H.
  cbv zeta in H.
  rewrite !le_value_le_bytes in H
    by (change (256 ^ Z.of_nat 4) with 4294967296; lia).
  exact H.
Qed.

Lemma add_wav_header_layout_witness :
  exists out : list byte,
    _add_wav_header [x01; x02] = Ok out
    /\ List.length out = 46%nat
    /\ skipn 44 out = [x01; x02]
    /\ read_wav_header (firstn 44 out)
       = {| riff_tag := b "RIFF";
            riff_size := 38;
            wave_tag := b "WAVE";
            fmt_tag := b "fmt ";
            fmt_size := 16;
            audio_format_code := 1;
            num_channels := 1;
            sample_rate := 24000;
            byte_rate := 48000;
            block_align := 2;
            bits_per_sample := 16;
            data_tag := b "data";
            data_size := 2 |}.
Proof.
  apply (add_wav_header_layout [x01; x02]).
  unfold max_wav_data. simpl. lia.
Defined.

(** The property as the specification words it, for every length, fails on
    data too long for the 32-bit size fields: for 4294967260 bytes the
    first size field would have to hold 4294967296, [struct.pack] raises
    and no byte sequence is returned. *)
Lemma add_wav_header_rejects_oversized :
  _add_wav_header (repeat x00 (Z.to_nat 4294967260)) = Raise StructError.
Proof.
  apply add_wav_header_too_long.
  rewrite repeat_length, Z2Nat.id by lia.
  unfold max_wav_data. lia.
Qed.

(** ** The output encoder *)

Section Encoder.

Context {rt : Runtime}.

(** C5, as the code has it: non-empty pcm data (of at most 4294967259
    bytes, so that a header can be synthesized) is wrapped by
    [_add_wav_header] before any output is produced: the base64 text
    encodes the wrapped bytes, and the temporary file, named [.wav],
    receives the wrapped bytes.  The empty byte sequence is not wrapped:
    it is encoded, or written, as it is. *)
Theorem format_output_wraps_nonempty_pcm (output_format : string)
    (w : World) :
  (forall audio_data : list byte,
     audio_data <> [] ->
     Z.of_nat (List.length audio_data) <= max_wav_data ->
     exists wrapped : list byte,
       _add_wav_header audio_data = Ok wrapped
       /\ List.length wrapped = (List.length audio_data + 44)%nat
       /\ _format_output audio_data output_format "pcm" w
          = (if String.eqb output_format "base64"
             then (Ok (b64encode wrapped), w, [])
             else write_named_temporary_file ".wav" wrapped w))
  /\ _format_output [] output_format "pcm" w
     = (if String.eqb output_format "base64"
        then (Ok "", w, [])
        else write_named_temporary_file ".wav" [] w).
Proof.
  split.
  - intros audio_data Hne Hlen.
    destruct (add_wav_header_length audio_data Hlen)
      as (wrapped & Hwrap & Hlength).
    exists wrapped. repeat split; try assumption.
    unfold _format_output.
    destruct audio_data as [|x rest]; [congruence|].
    cbn [String.eqb Ascii.eqb Bool.eqb andb].
    rewrite bind_assoc, bind_lift, Hwrap, !bind_ret.
    cbn [ext_map_get String.eqb Ascii.eqb Bool.eqb].
    destruct (String.eqb output_format "base64"); reflexivity.
  - unfold _format_output. cbn [String.eqb Ascii.eqb Bool.eqb andb].
    rewrite bind_ret.
    destruct (String.eqb output_format "base64"); reflexivity.
Qed.

End Encoder.

Lemma format_output_wraps_nonempty_pcm_witness :
  exists wrapped : list byte,
    _add_wav_header [x01; x02] = Ok wrapped
    /\ List.length wrapped = 46%nat
    /\ _format_output (rt := Demo.runtime) [x01; x02] "file_path" "pcm" Demo.w0
       = (Ok "/tmp/tmp0.wav",
          Demo.mkWorld 0 0 [("/tmp/tmp0.wav", wrapped)],
          [EvTempFile "/tmp/tmp0.wav" wrapped]).
Proof.
  apply (proj1 (format_output_wraps_nonempty_pcm (rt := Demo.runtime)
                  "file_path" Demo.w0)
           [x01; x02]).
  - discriminate.
  - unfold max_wav_data. simpl. lia.
Defined.

(** The property as the specification words it, the empty byte sequence
    included, fails there: [_format_output] encodes the empty sequence to
    the empty text, which is not the encoding of the 44-byte header that
    wrapping it gives, and the file it writes is empty. *)
Lemma format_output_leaves_empty_pcm_unwrapped :
  exists header : list byte,
    _add_wav_header [] = Ok header
    /\ List.length header = 44%nat
    /\ _format_output (rt := Demo.runtime) [] "base64" "pcm" Demo.w0
       = (Ok "", Demo.w0, [])
    /\ b64encode header <> ""
    /\ snd (_format_output (rt := Demo.runtime) [] "file_path" "pcm" Demo.w0)
       = [EvTempFile "/tmp/tmp0.wav" []].
Proof.
  eexists. split; [reflexivity|].
  repeat split; try reflexivity. discriminate.
Qed.

(** ** The result resolver *)

Section Resolver.

Context {rt : Runtime}.

Lemma logged_result {A} (t : list event) (r : outcome A) (w : World) :
  logged t (r, w, []) = (r, w, t).
Proof. simpl. now rewrite app_nil_r. Qed.

Lemma bind_call {A B} (ev : event) (f : World -> outcome A * World)
    (k : A -> M B) (w : World) :
  bind (call ev f) k w
  = match f w with
    | (Ok a, w1) => logged [ev] (k a w1)
    | (Raise e, w1) => (Raise e, w1, [ev])
    end.
Proof. unfold bind, call. now destruct (f w) as [[a|e] w1]. Qed.

(** The tail of the fallback path: a URL that counts as present is
    fetched, anything else gives the empty pcm artifact. *)
Lemma fallback_fetches (url : pyval) (w : World) :
  truthy url = true ->
  bind
    (if truthy url then
       bind (call (EvHttpGet url []) (http_get url []))
         (fun r : response =>
            ret (Some (content r,
                       _detect_audio_format (content r)
                         (headers_get_content_type r))))
     else ret None)
    (fun fallback : option (list byte * string) =>
       match fallback with
       | Some found => ret found
       | None => ret ([], "pcm")
       end) w
  = fetched_audio url w.
Proof.
  intros ->. rewrite bind_assoc, bind_call. unfold fetched_audio.
  destruct (http_get url [] w) as [[r|e] w1]; [|reflexivity].
  rewrite !bind_ret. reflexivity.
Qed.

Lemma fallback_finds_nothing (url : pyval) (w : World) :
  truthy url = false ->
  bind
    (if truthy url then
       bind (call (EvHttpGet url []) (http_get url []))
         (fun r : response =>
            ret (Some (content r,
                       _detect_audio_format (content r)
                         (headers_get_content_type r))))
     else ret None)
    (fun fallback : option (list byte * string) =>
       match fallback with
       | Some found => ret found
       | None => ret ([], "pcm")
       end) w
  = (Ok ([], "pcm"), w, []).
Proof. intros ->. now rewrite bind_ret. Qed.

(** [a or b or c] against the first candidate that counts as present. *)
Lemma or_chain_first_truthy (x y z : pyval) :
  match first_truthy [x; y; z] with
  | Some u => py_or x (py_or y z) = u /\ truthy u = true
  | None => truthy (py_or x (py_or y z)) = false
  end.
Proof.
  unfold py_or, first_truthy.
  destruct (truthy x) eqn:Hx; [auto|].
  destruct (truthy y) eqn:Hy; [auto|].
  destruct (truthy z) eqn:Hz; auto.
Qed.

Ltac resolve_fallback message :=
  split; [|split];
  [ intros d Hm; rewrite Hm;
    pose proof (or_chain_first_truthy (dict_get d "output_url")
                  (dict_get d "audio_url") (dict_get d "url")) as Hor;
    destruct d as [|kv d']; cbn [truthy];
    [ rewrite bind_ret; reflexivity
    |
      destruct (first_truthy _) as [u|];
      [ destruct Hor as [Hu Ht]; rewrite Hu;
        rewrite (fallback_fetches _ _ Ht), ?logged_nil; reflexivity
      | rewrite (fallback_finds_nothing _ _ Hor); reflexivity ] ]
  | intros s Hm; rewrite Hm;
    destruct s as [|c s']; cbn [truthy String.eqb negb];
    [ rewrite bind_ret; reflexivity
    |
      destruct (str_startswith (String c s') "http");
      [ rewrite fallback_fetches, ?logged_nil by reflexivity; reflexivity
      | rewrite fallback_finds_nothing by reflexivity; reflexivity ] ]
  | intros Hd Hs;
    destruct (truthy message) eqn:Htruthy;
    [ destruct message as [| | | s | | | d |];
      try (exfalso; exact (Hd _ eq_refl));
      try (exfalso; exact (Hs _ eq_refl));
      cbv iota; rewrite fallback_finds_nothing by reflexivity
    | rewrite bind_ret ];
    reflexivity ].

(** C8, as the code has it: when the primary path gives up, a message
    that is a mapping is searched under the keys output_url, audio_url and
    url, in that order, and the first value that counts as present (not
    missing, not None, not empty) is the URL fetched, so a present
    output_url wins over audio_url and url; a message that is a string is
    fetched itself exactly when it begins with "http"; in every other case
    no URL is found, nothing is fetched and the resolver returns the empty
    byte sequence with format "pcm". *)
Theorem fallback_url_priority (self : CambBaseTool) (status : pyval)
    (w w1 : World) (t1 : list event) :
  primary_gave_up self status w w1 t1 ->
  let message := getattr status "message" PyNone in
  let result := _get_audio_from_status self status w in
  (forall d : list (string * pyval),
     message = PyDict d ->
     result
     = match first_truthy [dict_get d "output_url"; dict_get d "audio_url";
                           dict_get d "url"] with
       | Some url => logged t1 (fetched_audio url w1)
       | None => (Ok ([], "pcm"), w1, t1)
       end)
  /\ (forall s : string,
        message = PyStr s ->
        result
        = if str_startswith s "http"
          then logged t1 (fetched_audio (PyStr s) w1)
          else (Ok ([], "pcm"), w1, t1))
  /\ ((forall d, message <> PyDict d) ->
      (forall s, message <> PyStr s) ->
      result = (Ok ([], "pcm"), w1, t1)).
Proof.
  intros Hprimary message result.
  unfold result, _get_audio_from_status. cbv zeta. fold message.
  destruct Hprimary as [(Hrun & -> & ->) | (Hrun & r & Hget & Hcode & ->)].
  - rewrite Hrun, bind_ret.
    resolve_fallback message.
  - rewrite Hrun, bind_assoc.
    unfold tts_result_url in Hget. cbv zeta in Hget.
    rewrite (bind_call_ok _ _ _ _ _ _ Hget), Hcode, bind_ret.
    resolve_fallback message.
Qed.

End Resolver.

Lemma fallback_url_priority_witness :
  _get_audio_from_status Demo.tool Demo.status_with_empty_output_url Demo.w0
  = (Ok (Demo.wav_bytes, "wav"), Demo.w0,
     [EvHttpGet (PyStr "https://cdn/a.wav") []]).
Proof.
  exact (proj1
           (fallback_url_priority Demo.tool Demo.status_with_empty_output_url
              Demo.w0 Demo.w0 []
              (or_introl (conj eq_refl (conj eq_refl eq_refl))))
           _ eq_refl).
Defined.

(** The property as the specification words it, a mapping that contains
    output_url uses its value, fails when that value is empty: the
    message below holds output_url, and the URL fetched is the one under
    audio_url. *)
Lemma fallback_passes_over_empty_output_url :
  getattr Demo.status_with_empty_output_url "message" PyNone
  = PyDict [("output_url", PyStr ""); ("audio_url", PyStr "https://cdn/a.wav")]
  /\ snd (_get_audio_from_status Demo.tool Demo.status_with_empty_output_url
            Demo.w0)
     = [EvHttpGet (PyStr "https://cdn/a.wav") []]
  /\ snd (_get_audio_from_status Demo.tool Demo.status_with_empty_output_url
            Demo.w0)
     <> [EvHttpGet (PyStr "") []].
Proof. repeat split. discriminate. Qed.

Example resolver_follows_string_message :
  _get_audio_from_status Demo.tool Demo.status_with_url_message Demo.w0
  = (Ok (Demo.wav_bytes, "wav"), Demo.w0,
     [EvHttpGet (PyStr "https://cdn/b.wav") []]).
Proof. reflexivity. Qed.

Example resolver_primary_path :
  _get_audio_from_status Demo.tool Demo.completed Demo.w0
  = (Ok (Demo.wav_bytes, "wav"), Demo.w0,
     [EvHttpGet (PyStr "https://client.camb.ai/apis/tts-result/42")
        [("x-api-key", PyStr "key")]]).
Proof. reflexivity. Qed.

(** ** The translation tool *)

Section Translation.

Context {rt : Runtime}.

Lemma py_eq_int_200 (code : pyval) :
  py_eq_int code 200 = true <-> code = PyInt 200.
Proof.
  split.
  - destruct code as [| flag | n | | | | |]; simpl; try discriminate.
    + destruct flag; discriminate.
    + intros H. apply Z.eqb_eq in H. now subst.
  - intros ->. reflexivity.
Qed.

Lemma error_channel_condition (code body : pyval) :
  code <> PyInt 200 \/ truthy body = false ->
  py_eq_int code 200 && truthy body = false.
Proof.
  intros [H | H].
  - destruct (py_eq_int code 200) eqn:E; [|reflexivity].
    now apply py_eq_int_200 in E.
  - rewrite H. apply andb_false_r.
Qed.

(** C9: success through the error channel.  When [translation_stream]
    raises an [ApiError] whose status code is 200 and whose body is not
    empty, [_run] and [_arun] return the body, as a string, as the
    translation; an [ApiError] with any other status code, or with an
    empty body, is raised again unchanged. *)
Theorem translation_success_via_error_channel (text : string)
    (source_language target_language : Z) (formality : pyval)
    (w w1 : World) (code body : pyval) :
  let kwargs :=
    translation_kwargs text source_language target_language formality in
  (translation_stream kwargs w = (Raise (ApiError code body), w1) ->
   (code = PyInt 200 -> truthy body = true ->
    _run text source_language target_language formality w
    = (Ok (PyStr (py_str body)), w1, [EvTranslationStream kwargs]))
   /\ (code <> PyInt 200 \/ truthy body = false ->
       _run text source_language target_language formality w
       = (Raise (ApiError code body), w1, [EvTranslationStream kwargs])))
  /\ (translation_stream_async kwargs w = (Raise (ApiError code body), w1) ->
      (code = PyInt 200 -> truthy body = true ->
       _arun text source_language target_language formality w
       = (Ok (PyStr (py_str body)), w1, [EvTranslationStreamAsync kwargs]))
      /\ (code <> PyInt 200 \/ truthy body = false ->
          _arun text source_language target_language formality w
          = (Raise (ApiError code body), w1,
             [EvTranslationStreamAsync kwargs]))).
Proof.
  intros kwargs. split; intros Hcall; split.
  - intros -> Hbody. unfold _run, try_except_ApiError. fold kwargs.
    rewrite (bind_call_raise _ _ _ _ _ _ Hcall).
    cbn [py_eq_int Z.eqb Pos.eqb andb]. rewrite Hbody. reflexivity.
  - intros Hother. unfold _run, try_except_ApiError. fold kwargs.
    rewrite (bind_call_raise _ _ _ _ _ _ Hcall).
    rewrite (error_channel_condition _ _ Hother). reflexivity.
  - intros -> Hbody. unfold _arun, try_except_ApiError. fold kwargs.
    rewrite (bind_call_raise _ _ _ _ _ _ Hcall).
    cbn [py_eq_int Z.eqb Pos.eqb andb]. rewrite Hbody. reflexivity.
  - intros Hother. unfold _arun, try_except_ApiError. fold kwargs.
    rewrite (bind_call_raise _ _ _ _ _ _ Hcall).
    rewrite (error_channel_condition _ _ Hother). reflexivity.
Qed.

End Translation.

Lemma translation_success_via_error_channel_witness :
  _run (rt := Demo.runtime) "Hello" 1 2 PyNone Demo.w0
  = (Ok (PyStr "Hola"), Demo.w0,
     [EvTranslationStream
        [("text", PyStr "Hello"); ("source_language", PyInt 1);
         ("target_language", PyInt 2)]])
  /\ _arun (rt := Demo.runtime) "Hello" 1 2 (PyInt 1) Demo.w0
     = (Ok (PyStr "Hola"), Demo.w0,
        [EvTranslationStreamAsync
           [("text", PyStr "Hello"); ("source_language", PyInt 1);
            ("target_language", PyInt 2); ("formality", PyInt 1)]]).
Proof.
  split.
  - apply (proj1 (translation_success_via_error_channel
                    (rt := Demo.runtime) "Hello" 1 2 PyNone
                    Demo.w0 Demo.w0 (PyInt 200) (PyStr "Hola")));
      reflexivity.
  - apply (proj2 (translation_success_via_error_channel
                    (rt := Demo.runtime) "Hello" 1 2 (PyInt 1)
                    Demo.w0 Demo.w0 (PyInt 200) (PyStr "Hola")));
      reflexivity.
Defined.

(** * Further properties *)

(** ** The task poller, whatever the status function does *)

Section PollerSafety.

Context {rt : Runtime}.

Ltac name_round :=
  cbn [for_range]; rewrite !bind_assoc.

Ltac split_probe st :=
  destruct (hasattr st "status") eqn:?Hhas;
  [ destruct (py_in (getattr st "status" PyNone) ["completed"; "SUCCESS"])
      eqn:?Hsucc;
    [ | destruct (py_in (getattr st "status" PyNone)
                    ["failed"; "FAILED"; "error"]) eqn:?Hfail ]
  | ];
  repeat (rewrite ?bind_ret, ?bind_raise, ?bind_assoc,
                  ?bind_asyncio_sleep, ?bind_time_sleep; cbv beta iota).

Lemma async_poll_fetch_error (self : CambBaseTool) (f : status_fn)
    (tid : string) (rid : option Z) (k : nat) (w w1 w2 : World) (e : pyexn) :
  pending_run f tid rid (poll_interval self) k w w1 ->
  ((0 < k)%nat -> asyncio_sleep_error (poll_interval self) = None) ->
  f tid rid w1 = (Raise e, w2) ->
  (k < range_len (max_poll_attempts self))%nat ->
  _poll_task_status self f tid rid w
  = (Raise e, w2,
     pending_log EvAsyncioSleep tid rid (poll_interval self) k
     ++ [EvGetStatus tid rid]).
Proof.
  intros Hrun Hok Hf. unfold _poll_task_status.
  generalize (range_len (max_poll_attempts self)) as n.
  induction Hrun as [w|k w st0 w1 w' Hf0 Hp Hrun IH]; intros n Hlt.
  - destruct n as [|n]; [lia|].
    name_round. now rewrite (bind_call_raise _ _ _ _ _ _ Hf).
  - destruct n as [|n]; [lia|].
    pose proof (Hok (Nat.lt_0_succ k)) as Hacc.
    name_round. rewrite (bind_call_ok _ _ _ _ _ _ Hf0).
    destruct (probe_pending _ Hp) as [Hh | (Hh & Hs & Hfl)];
      rewrite ?Hh, ?Hs, ?Hfl;
      repeat (rewrite ?bind_ret, ?bind_assoc, ?bind_asyncio_sleep,
                      ?bind_time_sleep; cbv beta iota);
      rewrite Hacc; (rewrite IH by (auto; lia)); reflexivity.
Qed.

Lemma sync_poll_fetch_error (self : CambBaseTool) (f : status_fn)
    (tid : string) (rid : option Z) (k : nat) (w w1 w2 : World) (e : pyexn) :
  pending_run f tid rid (poll_interval self) k w w1 ->
  ((0 < k)%nat -> time_sleep_error (poll_interval self) = None) ->
  f tid rid w1 = (Raise e, w2) ->
  (k < range_len (max_poll_attempts self))%nat ->
  _poll_task_status_sync self f tid rid w
  = (Raise e, w2,
     pending_log EvTimeSleep tid rid (poll_interval self) k
     ++ [EvGetStatus tid rid]).
Proof.
  intros Hrun Hok Hf. unfold _poll_task_status_sync.
  generalize (range_len (max_poll_attempts self)) as n.
  induction Hrun as [w|k w st0 w1 w' Hf0 Hp Hrun IH]; intros n Hlt.
  - destruct n as [|n]; [lia|].
    name_round. now rewrite (bind_call_raise _ _ _ _ _ _ Hf).
  - destruct n as [|n]; [lia|].
    pose proof (Hok (Nat.lt_0_succ k)) as Hacc.
    name_round. rewrite (bind_call_ok _ _ _ _ _ _ Hf0).
    destruct (probe_pending _ Hp) as [Hh | (Hh & Hs & Hfl)];
      rewrite ?Hh, ?Hs, ?Hfl;
      repeat (rewrite ?bind_ret, ?bind_assoc, ?bind_asyncio_sleep,
                      ?bind_time_sleep; cbv beta iota);
      rewrite Hacc; (rewrite IH by (auto; lia)); reflexivity.
Qed.

(** X1: An exception of the status function ends the poll at once, in both
    variants: it is raised to the caller unchanged, after any number of
    pending rounds within the budget (each slept through, which asks,
    when there is such a round, that the variant's sleep takes the
    interval), and the log ends with the fetch that raised: the loop
    does not sleep, retry or wrap the exception. *)
Theorem poll_propagates_fetch_error (self : CambBaseTool) (f : status_fn)
    (tid : string) (rid : option Z) (k : nat) (w w1 w2 : World) (e : pyexn) :
  pending_run f tid rid (poll_interval self) k w w1 ->
  f tid rid w1 = (Raise e, w2) ->
  (k < range_len (max_poll_attempts self))%nat ->
  (((0 < k)%nat -> asyncio_sleep_error (poll_interval self) = None) ->
   _poll_task_status self f tid rid w
   = (Raise e, w2,
      pending_log EvAsyncioSleep tid rid (poll_interval self) k
      ++ [EvGetStatus tid rid]))
  /\ (((0 < k)%nat -> time_sleep_error (poll_interval self) = None) ->
      _poll_task_status_sync self f tid rid w
      = (Raise e, w2,
         pending_log EvTimeSleep tid rid (poll_interval self) k
         ++ [EvGetStatus tid rid])).
Proof.
  intros Hrun Hf Hlt. split; intros Hok.
  - eapply async_poll_fetch_error; eauto.
  - eapply sync_poll_fetch_error; eauto.
Qed.

(** X2: With an attempt budget of zero or less the loop body never runs: no
    status is fetched, nothing is slept, the world is untouched, and both
    variants raise the [TimeoutError] straight away. *)
Theorem poll_without_budget (self : CambBaseTool) (f : status_fn)
    (tid : string) (rid : option Z) (w : World) :
  max_poll_attempts self <= 0 ->
  let timeout :=
    TimeoutError
      ("Task " ++ tid ++ " did not complete within "
       ++ float_str (int_mul_float (max_poll_attempts self)
                                   (poll_interval self))
       ++ " seconds")%string in
  _poll_task_status self f tid rid w = (Raise timeout, w, [])
  /\ _poll_task_status_sync self f tid rid w = (Raise timeout, w, []).
Proof.
  intros Hmax timeout.
  assert (Hn : range_len (max_poll_attempts self) = 0%nat)
    by (unfold range_len; lia).
  unfold _poll_task_status, _poll_task_status_sync. rewrite Hn.
  split; reflexivity.
Qed.

Lemma probe_success_inv (st : pyval) (names : list string) :
  hasattr st "status" = true ->
  py_in (getattr st "status" PyNone) names = true ->
  status_field_in st names = true.
Proof.
  intros Hh Hin. destruct st; try discriminate Hh.
  unfold hasattr in Hh. unfold getattr in Hin. unfold status_field_in.
  destruct (get_attr (PyObj attrs) "status") as [v|]; [|discriminate].
  now destruct v.
Qed.

Lemma status_field_in_two (st : pyval) (x y : string) :
  status_field_in st [x; y] = true ->
  get_attr st "status" = Some (PyStr x)
  \/ get_attr st "status" = Some (PyStr y).
Proof.
  unfold status_field_in.
  destruct (get_attr st "status") as [[| | | s | | | |]|]; try discriminate.
  cbn [existsb]. rewrite orb_false_r, orb_true_iff, !String.eqb_eq.
  intros [-> | ->]; auto.
Qed.

Lemma async_poll_result_is_success (self : CambBaseTool) (f : status_fn)
    (tid : string) (rid : option Z) (w w' : World) (st : pyval)
    (log : list event) :
  _poll_task_status self f tid rid w = (Ok st, w', log) ->
  (get_attr st "status" = Some (PyStr "completed")
   \/ get_attr st "status" = Some (PyStr "SUCCESS"))
  /\ exists w0 : World, f tid rid w0 = (Ok st, w').
Proof.
  unfold _poll_task_status.
  generalize (range_len (max_poll_attempts self)) as n.
  intros n. revert w log.
  induction n as [|n IH]; intros w log H; [discriminate H|].
  revert H. name_round.
  destruct (f tid rid w) as [[st0|e] w1] eqn:Hf.
  - rewrite (bind_call_ok _ _ _ _ _ _ Hf).
    split_probe st0.
    + intros H. inversion H; subst. split; [|eauto].
      apply status_field_in_two. now apply probe_success_inv.
    + discriminate.
    + destruct (asyncio_sleep_error (poll_interval self)); [discriminate|].
      destruct (for_range n _ _ (elapse (poll_interval self) w1))
        as [[r w2] t] eqn:Hrec.
      intros H. inversion H; subst. eapply IH. exact Hrec.
    + destruct (asyncio_sleep_error (poll_interval self)); [discriminate|].
      destruct (for_range n _ _ (elapse (poll_interval self) w1))
        as [[r w2] t] eqn:Hrec.
      intros H. inversion H; subst. eapply IH. exact Hrec.
  - rewrite (bind_call_raise _ _ _ _ _ _ Hf). discriminate.
Qed.

Lemma sync_poll_result_is_success (self : CambBaseTool) (f : status_fn)
    (tid : string) (rid : option Z) (w w' : World) (st : pyval)
    (log : list event) :
  _poll_task_status_sync self f tid rid w = (Ok st, w', log) ->
  (get_attr st "status" = Some (PyStr "completed")
   \/ get_attr st "status" = Some (PyStr "SUCCESS"))
  /\ exists w0 : World, f tid rid w0 = (Ok st, w').
Proof.
  unfold _poll_task_status_sync.
  generalize (range_len (max_poll_attempts self)) as n.
  intros n. revert w log.
  induction n as [|n IH]; intros w log H; [discriminate H|].
  revert H. name_round.
  destruct (f tid rid w) as [[st0|e] w1] eqn:Hf.
  - rewrite (bind_call_ok _ _ _ _ _ _ Hf).
    split_probe st0.
    + intros H. inversion H; subst. split; [|eauto].
      apply status_field_in_two. now apply probe_success_inv.
    + discriminate.
    + destruct (time_sleep_error (poll_interval self)); [discriminate|].
      destruct (for_range n _ _ (elapse (poll_interval self) w1))
        as [[r w2] t] eqn:Hrec.
      intros H. inversion H; subst. eapply IH. exact Hrec.
    + destruct (time_sleep_error (poll_interval self)); [discriminate|].
      destruct (for_range n _ _ (elapse (poll_interval self) w1))
        as [[r w2] t] eqn:Hrec.
      intros H. inversion H; subst. eapply IH. exact Hrec.
  - rewrite (bind_call_raise _ _ _ _ _ _ Hf). discriminate.
Qed.

(** X3: Whatever the status function does, a payload that either variant
    returns is one whose status field is "completed" or "SUCCESS", and it
    is a payload the status function answered with: the poller never
    returns a pending or failed payload, and never makes one up. *)
Theorem poll_returns_only_success (self : CambBaseTool) (f : status_fn)
    (tid : string) (rid : option Z) (w w' : World) (st : pyval)
    (log : list event) :
  _poll_task_status self f tid rid w = (Ok st, w', log)
  \/ _poll_task_status_sync self f tid rid w = (Ok st, w', log) ->
  (get_attr st "status" = Some (PyStr "completed")
   \/ get_attr st "status" = Some (PyStr "SUCCESS"))
  /\ exists w0 : World, f tid rid w0 = (Ok st, w').
Proof.
  intros [H | H].
  - eapply async_poll_result_is_success; eauto.
  - eapply sync_poll_result_is_success; eauto.
Qed.

Lemma snd_logged {A} (t0 : list event)
    (res : outcome A * World * list event) :
  snd (logged t0 res) = t0 ++ snd res.
Proof. now destruct res as [[r w] t]. Qed.

(** One round of the log: a sleep that raises ends it with the fetch
    before it. *)
Ltac log_shape_round IH f tid rid w sleep_error :=
  name_round;
  destruct (f tid rid w) as [[?st|?e] ?w1] eqn:?Hf;
  [ rewrite (bind_call_ok _ _ _ _ _ _ Hf); split_probe st;
    destruct sleep_error eqn:?Hsleep;
    rewrite ?snd_logged; cbn [snd app];
    try (exists 0%nat, [EvGetStatus tid rid]; cbn; repeat split; auto; lia);
    match goal with
    | |- context [for_range ?n ?body ?orelse ?w'] =>
        destruct (IH w') as (k & last & Hlast & Hlog & Hk);
        rewrite Hlog; exists (S k), last; cbn; repeat split; auto; lia
    end
  | rewrite (bind_call_raise _ _ _ _ _ _ Hf);
    exists 0%nat, [EvGetStatus tid rid]; cbn; repeat split; auto; lia ].

Lemma async_poll_log_shape (self : CambBaseTool) (f : status_fn)
    (tid : string) (rid : option Z) (w : World) :
  exists (k : nat) (last : list event),
    (last = [] \/ last = [EvGetStatus tid rid])
    /\ snd (_poll_task_status self f tid rid w)
       = pending_log EvAsyncioSleep tid rid (poll_interval self) k ++ last
    /\ (k + List.length last <= range_len (max_poll_attempts self))%nat.
Proof.
  unfold _poll_task_status.
  generalize (range_len (max_poll_attempts self)) as n.
  intros n. revert w.
  induction n as [|n IH]; intros w.
  - exists 0%nat, []. cbn. auto.
  - log_shape_round IH f tid rid w
      (asyncio_sleep_error (poll_interval self)).
Qed.

Lemma sync_poll_log_shape (self : CambBaseTool) (f : status_fn)
    (tid : string) (rid : option Z) (w : World) :
  exists (k : nat) (last : list event),
    (last = [] \/ last = [EvGetStatus tid rid])
    /\ snd (_poll_task_status_sync self f tid rid w)
       = pending_log EvTimeSleep tid rid (poll_interval self) k ++ last
    /\ (k + List.length last <= range_len (max_poll_attempts self))%nat.
Proof.
  unfold _poll_task_status_sync.
  generalize (range_len (max_poll_attempts self)) as n.
  intros n. revert w.
  induction n as [|n IH]; intros w.
  - exists 0%nat, []. cbn. auto.
  - log_shape_round IH f tid rid w
      (time_sleep_error (poll_interval self)).
Qed.

Lemma fetch_count_app (t1 t2 : list event) :
  fetch_count (t1 ++ t2) = (fetch_count t1 + fetch_count t2)%nat.
Proof. unfold fetch_count. now rewrite filter_app, length_app. Qed.

Lemma slept_app (t1 t2 : list event) :
  slept (t1 ++ t2) = slept t1 ++ slept t2.
Proof.
  induction t1 as [|ev t1 IH]; [reflexivity|].
  destruct ev; simpl; now rewrite IH.
Qed.

(** X4: Whatever the status function does, the log of either variant is a
    number of (fetch, sleep) rounds, each fetch for the task and run id
    given and each sleep of [poll_interval], followed by at most one more
    fetch.  So the poller never fetches more than [max_poll_attempts]
    times, never sleeps twice between two fetches, never sleeps before
    the first fetch, and calls nothing else. *)
Theorem poll_log_shape (self : CambBaseTool) (f : status_fn)
    (tid : string) (rid : option Z) (w : World) :
  let d := poll_interval self in
  let n := range_len (max_poll_attempts self) in
  let log_async := snd (_poll_task_status self f tid rid w) in
  let log_sync := snd (_poll_task_status_sync self f tid rid w) in
  (exists (k : nat) (last : list event),
     (last = [] \/ last = [EvGetStatus tid rid])
     /\ log_async = pending_log EvAsyncioSleep tid rid d k ++ last
     /\ fetch_count log_async = (k + List.length last)%nat
     /\ slept log_async = repeat d k)
  /\ (exists (k : nat) (last : list event),
        (last = [] \/ last = [EvGetStatus tid rid])
        /\ log_sync = pending_log EvTimeSleep tid rid d k ++ last
        /\ fetch_count log_sync = (k + List.length last)%nat
        /\ slept log_sync = repeat d k)
  /\ (fetch_count log_async <= n)%nat
  /\ (fetch_count log_sync <= n)%nat.
Proof.
  intros d n log_async log_sync.
  destruct (async_poll_log_shape self f tid rid w)
    as (ka & la & Hla & Ha & Hka).
  destruct (sync_poll_log_shape self f tid rid w)
    as (ks & ls & Hls & Hs & Hks).
  fold log_async in Ha. fold log_sync in Hs. fold d in Ha, Hs.
  assert (Hca : fetch_count log_async = (ka + List.length la)%nat).
  { rewrite Ha, fetch_count_app, fetch_count_pending_log by reflexivity.
    destruct Hla as [-> | ->]; reflexivity. }
  assert (Hcs : fetch_count log_sync = (ks + List.length ls)%nat).
  { rewrite Hs, fetch_count_app, fetch_count_pending_log by reflexivity.
    destruct Hls as [-> | ->]; reflexivity. }
  split; [|split; [|split]].
  - exists ka, la. repeat split; auto.
    rewrite Ha, slept_app, slept_pending_log_async.
    destruct Hla as [-> | ->]; simpl; now rewrite app_nil_r.
  - exists ks, ls. repeat split; auto.
    rewrite Hs, slept_app, slept_pending_log_sync.
    destruct Hls as [-> | ->]; simpl; now rewrite app_nil_r.
  - fold n in Hka. lia.
  - fold n in Hks. lia.
Qed.

End PollerSafety.

(** ** Configuration *)

Section ConfigFacts.

Context {rt : Runtime}.

Import Config.

Lemma validate_truthy_key (api_key : pyval)
    (environ : list (string * string)) :
  truthy api_key = true -> validate_api_key api_key environ = Ok api_key.
Proof.
  intros H. unfold validate_api_key. rewrite H. cbn [negb].
  now rewrite H.
Qed.

(** X5: The key a tool or a toolkit ends up with.  A key given explicitly and
    not empty is kept, whatever the environment holds; a missing or empty
    one is replaced by CAMB_API_KEY from the environment; when that is
    unset or empty too, a [ValueError] is raised.  The tool's validator
    and the toolkit's [_get_api_key] resolve the key alike, and a key
    they return is never empty. *)
Theorem api_key_resolution (self : CambToolkit)
    (environ : list (string * string)) :
  let api_key := tk_api_key self in
  let from_environ := environ_get environ "CAMB_API_KEY" in
  _get_api_key self environ = validate_api_key api_key environ
  /\ (truthy api_key = true ->
      validate_api_key api_key environ = Ok api_key)
  /\ (truthy api_key = false -> truthy from_environ = true ->
      validate_api_key api_key environ = Ok from_environ)
  /\ (truthy api_key = false -> truthy from_environ = false ->
      validate_api_key api_key environ = Raise api_key_required)
  /\ (forall key, validate_api_key api_key environ = Ok key ->
      truthy key = true).
Proof.
  intros api_key from_environ.
  unfold _get_api_key, validate_api_key, py_or.
  fold api_key from_environ.
  destruct (truthy api_key) eqn:Ha; cbn [negb].
  - rewrite Ha. cbn [negb]. repeat split; try discriminate.
    intros key H. inversion H. now subst.
  - destruct (truthy from_environ) eqn:He; cbn [negb];
      repeat split; try discriminate.
    intros key H. inversion H. now subst.
Qed.

(** X6: What [get_tools] returns.  Without a key it raises the [ValueError],
    even when no tool is enabled.  With one it never fails: it returns
    one tool for each enabled flag, in the fixed order TTS, translated
    TTS, translation, transcription, voice list, voice clone,
    text-to-sound, audio separation, and every tool holds the resolved
    key and the toolkit's base URL and timeout. *)
Theorem get_tools_enabled_in_order (self : CambToolkit)
    (environ : list (string * string)) :
  get_tools self environ
  = match _get_api_key self environ with
    | Ok key =>
        Ok (map (fun kind =>
                   mkBuilt kind key (tk_base_url self) (tk_timeout self))
                (filter (enabled self) all_kinds))
    | Raise e => Raise e
    end.
Proof.
  unfold get_tools.
  destruct (_get_api_key self environ) as [key|e] eqn:Hkey; [|reflexivity].
  assert (Htruthy : truthy key = true).
  { revert Hkey. unfold _get_api_key.
    destruct (truthy (py_or _ _)) eqn:E; cbn [negb]; [|discriminate].
    intros H. inversion H. now subst. }
  cbn [obind]. unfold append_if, new_tool.
  rewrite (validate_truthy_key _ environ Htruthy). cbn [obind].
  destruct self as [k u t f1 f2 f3 f4 f5 f6 f7 f8].
  cbn [include_tts include_translated_tts include_translation
       include_transcription include_voice_list include_voice_clone
       include_text_to_sound include_audio_separation
       tk_base_url tk_timeout enabled all_kinds filter].
  destruct f1, f2, f3, f4, f5, f6, f7, f8; reflexivity.
Qed.

(** X7: The source validators of the transcription and of the separation
    input accept exactly the inputs with one source: precisely one of
    [audio_url] and [audio_file_path] present and not empty.  The two
    validators decide alike. *)
Theorem audio_source_exactly_one (audio_url audio_file_path : pyval) :
  (transcription_validate_audio_source audio_url audio_file_path
   = Ok (audio_url, audio_file_path)
   <-> xorb (truthy audio_url) (truthy audio_file_path) = true)
  /\ (xorb (truthy audio_url) (truthy audio_file_path) = false ->
      exists msg,
        transcription_validate_audio_source audio_url audio_file_path
        = Raise (OtherError "ValueError" msg))
  /\ separation_validate_audio_source audio_url audio_file_path
     = transcription_validate_audio_source audio_url audio_file_path.
Proof.
  unfold transcription_validate_audio_source,
    separation_validate_audio_source.
  destruct (truthy audio_url), (truthy audio_file_path); cbn;
    repeat split; intros; try discriminate; try reflexivity; eauto.
Qed.

End ConfigFacts.

(** ** Text extraction of the translation tool *)

Section TranslationFacts.

Context {rt : Runtime}.

Lemma hasattr_data (v : pyval) (name : string) :
  String.eqb name "__iter__" = false ->
  hasattr v name
  = match get_attr v name with Some _ => true | None => false end.
Proof. intros H. destruct v; simpl; try rewrite H; reflexivity. Qed.

Lemma str_join_collect (chunks : list pyval) :
  str_join (collect_chunks chunks)
  = if forallb text_chunk_ok chunks
    then Ok (join_texts (map chunk_text chunks))
    else Raise (TypeError "sequence item: expected str instance").
Proof.
  induction chunks as [|chunk chunks IH]; [reflexivity|].
  cbn [collect_chunks forallb map join_texts fold_right].
  rewrite (hasattr_data chunk "text") by reflexivity.
  unfold text_chunk_ok at 1, chunk_text at 1, getattr.
  destruct (get_attr chunk "text") as [v|] eqn:E.
  - destruct v; cbn [str_join andb]; try reflexivity.
    rewrite IH. now destruct (forallb text_chunk_ok chunks).
  - cbn [andb]. destruct chunk; cbn [isinstance_str]; try exact IH.
    cbn [str_join]. rewrite IH.
    now destruct (forallb text_chunk_ok chunks).
Qed.

(** X8: A streamed result is read chunk by chunk and joined in arrival
    order: each chunk gives its [text] attribute, or itself when it is a
    string, and a chunk that is neither is skipped.  The one way this
    fails is a [text] attribute that is not a string, which makes the
    join raise [TypeError]. *)
Theorem extract_text_joins_chunks (chunks : list pyval) :
  _extract_text (PyList chunks)
  = if forallb text_chunk_ok chunks
    then Ok (PyStr (join_texts (map chunk_text chunks)))
    else Raise (TypeError "sequence item: expected str instance").
Proof.
  unfold _extract_text. cbn [hasattr String.eqb Ascii.eqb Bool.eqb
    isinstance_str isinstance_bytes orb negb andb iter_items].
  rewrite str_join_collect.
  now destruct (forallb text_chunk_ok chunks).
Qed.

Lemma collect_string_items (keys : list string) :
  str_join (collect_chunks (map PyStr keys)) = Ok (join_texts keys).
Proof.
  induction keys as [|k keys IH]; [reflexivity|].
  cbn [map collect_chunks hasattr String.eqb Ascii.eqb Bool.eqb
       isinstance_str str_join join_texts fold_right].
  now rewrite IH.
Qed.

(** X9: A result that is a mapping is iterated like any other iterable, that
    is over its keys: the text extracted is the keys joined in order, and
    no value of the mapping, not even one under "text", is read. *)
Theorem extract_text_of_mapping_joins_keys (d : list (string * pyval)) :
  _extract_text (PyDict d) = Ok (PyStr (join_texts (map fst d))).
Proof.
  unfold _extract_text. cbn [hasattr String.eqb Ascii.eqb Bool.eqb
    isinstance_str isinstance_bytes orb negb andb iter_items].
  rewrite <- (map_map fst PyStr d), collect_string_items.
  reflexivity.
Qed.

Lemma extract_text_raises_only_type_error (result : pyval) (e : pyexn) :
  _extract_text result = Raise e ->
  e = TypeError "sequence item: expected str instance".
Proof.
  unfold _extract_text.
  destruct (hasattr result "__iter__"
            && negb (isinstance_str result || isinstance_bytes result)).
  - destruct (iter_items result) as [|x l] eqn:Hitems.
    + discriminate.
    + rewrite <- Hitems. clear Hitems.
      generalize (iter_items result) as items. intros items.
      rewrite str_join_collect.
      destruct (forallb text_chunk_ok items); [discriminate|].
      intros H. now inversion H.
  - destruct (hasattr result "text"); [discriminate|].
    destruct (isinstance_str result); discriminate.
Qed.

(** X10: Only an [ApiError] is intercepted.  When [translation_stream]
    returns, [_run] and [_arun] return the text extracted from the
    result, or raise the [TypeError] of the extraction; when it raises
    anything but an [ApiError], that exception reaches the caller
    unchanged.  Either way the stream is called exactly once. *)
Theorem translation_passes_other_outcomes (text : string)
    (source_language target_language : Z) (formality : pyval)
    (w w1 : World) (r : outcome pyval) :
  (forall code body, r <> Raise (ApiError code body)) ->
  let kwargs :=
    translation_kwargs text source_language target_language formality in
  (translation_stream kwargs w = (r, w1) ->
   _run text source_language target_language formality w
   = (obind r _extract_text, w1, [EvTranslationStream kwargs]))
  /\ (translation_stream_async kwargs w = (r, w1) ->
      _arun text source_language target_language formality w
      = (obind r _extract_text, w1, [EvTranslationStreamAsync kwargs])).
Proof.
  intros Hr kwargs.
  split; intros Hcall.
  - unfold _run, try_except_ApiError. fold kwargs.
    rewrite bind_call, Hcall.
    destruct r as [result|e]; cbn [obind].
    + unfold lift, logged.
      destruct (_extract_text result) as [t|e] eqn:He; [reflexivity|].
      apply extract_text_raises_only_type_error in He. now subst.
    + destruct e; try reflexivity. now elim (Hr status_code0 body).
  - unfold _arun, try_except_ApiError. fold kwargs.
    rewrite bind_call, Hcall.
    destruct r as [result|e]; cbn [obind].
    + unfold lift, logged.
      destruct (_extract_text result) as [t|e] eqn:He; [reflexivity|].
      apply extract_text_raises_only_type_error in He. now subst.
    + destruct e; try reflexivity. now elim (Hr status_code0 body).
Qed.

End TranslationFacts.

(** ** Detection and encoding of the translated-speech tool *)

Section EncoderFacts.

Context {rt : Runtime}.

(** X11: The detector answers with one of its five formats, whatever the
    bytes and the content type. *)
Theorem detect_audio_format_range (audio_data : list byte)
    (content_type : string) :
  In (_detect_audio_format audio_data content_type) audio_formats.
Proof.
  unfold _detect_audio_format, audio_formats.
  repeat match goal with
         | |- In (if ?c then _ else _) _ => destruct c
         | |- In (let _ := _ in _) _ => cbv zeta
         end;
    simpl; auto 10.
Qed.

Lemma add_wav_header_begins_riff (pcm_data out : list byte) :
  _add_wav_header pcm_data = Ok out ->
  exists rest, out = b "RIFF" ++ rest /\ out <> [].
Proof.
  intros H.
  destruct (Z.le_gt_cases (Z.of_nat (List.length pcm_data)) max_wav_data)
    as [Hle | Hgt].
  - rewrite (add_wav_header_bytes _ Hle) in H. inversion H.
    eexists. split; [reflexivity|]. discriminate.
  - rewrite add_wav_header_too_long in H by lia. discriminate.
Qed.

(** X12: Wrapping happens once.  What [_add_wav_header] returns is detected as
    wav whatever content type it is served with, and the encoder then
    passes it on as it is: it is encoded, or written to a [.wav] file,
    without a second header. *)
Theorem wrapped_audio_is_wav (pcm_data out : list byte)
    (content_type output_format : string) (w : World) :
  _add_wav_header pcm_data = Ok out ->
  _detect_audio_format out content_type = "wav"
  /\ _format_output out output_format
       (_detect_audio_format out content_type) w
     = (if String.eqb output_format "base64"
        then (Ok (b64encode out), w, [])
        else write_named_temporary_file ".wav" out w).
Proof.
  intros H. destruct (add_wav_header_begins_riff _ _ H) as (rest & -> & _).
  assert (Hd : _detect_audio_format (b "RIFF" ++ rest) content_type = "wav")
    by reflexivity.
  split; [exact Hd|]. rewrite Hd.
  unfold _format_output. cbn [String.eqb Ascii.eqb Bool.eqb andb].
  rewrite bind_ret.
  destruct (String.eqb output_format "base64"); reflexivity.
Qed.

Lemma format_output_plain (audio_data : list byte)
    (output_format audio_format : string) (w : World) :
  audio_format <> "pcm" ->
  _format_output audio_data output_format audio_format w
  = (if String.eqb output_format "base64"
     then (Ok (b64encode audio_data), w, [])
     else write_named_temporary_file (ext_map_get audio_format)
            audio_data w).
Proof.
  intros Hfmt. unfold _format_output.
  replace (String.eqb audio_format "pcm") with false
    by (symmetry; now apply String.eqb_neq).
  cbn [andb]. rewrite bind_ret.
  destruct (String.eqb output_format "base64"); reflexivity.
Qed.

Lemma format_output_log (audio_data : list byte)
    (output_format audio_format : string) (w : World) :
  Forall (fun ev => forget_sleep_kind ev = ev)
    (snd (_format_output audio_data output_format audio_format w)).
Proof.
  unfold _format_output.
  destruct (String.eqb audio_format "pcm"
            && match audio_data with [] => false | _ => true end).
  - rewrite bind_assoc, bind_lift.
    destruct (_add_wav_header audio_data) as [wrapped|e];
      [|constructor].
    rewrite !bind_ret.
    destruct (String.eqb output_format "base64"); [constructor|].
    unfold write_named_temporary_file.
    destruct (temp_stem w). repeat constructor.
  - rewrite bind_ret.
    destruct (String.eqb output_format "base64"); [constructor|].
    unfold write_named_temporary_file.
    destruct (temp_stem w). repeat constructor.
Qed.

(** X13: Audio of any format but pcm leaves the encoder byte for byte as it
    came in; the format only chooses the file extension: [.wav], [.mp3],
    [.flac] and [.ogg] for the four container formats, and [.wav] for a
    format the encoder does not know. *)
Theorem format_output_keeps_container_audio (audio_data : list byte)
    (output_format audio_format : string) (w : World) :
  audio_format <> "pcm" ->
  _format_output audio_data output_format audio_format w
  = (if String.eqb output_format "base64"
     then (Ok (b64encode audio_data), w, [])
     else write_named_temporary_file (ext_map_get audio_format)
            audio_data w)
  /\ (In audio_format ["wav"; "mp3"; "flac"; "ogg"] ->
      ext_map_get audio_format = ("." ++ audio_format)%string)
  /\ (~ In audio_format ["wav"; "mp3"; "flac"; "ogg"] ->
      ext_map_get audio_format = ".wav").
Proof.
  intros Hfmt. split; [|split].
  - now apply format_output_plain.
  - intros [<- | [<- | [<- | [<- | []]]]]; reflexivity.
  - intros Hout. unfold ext_map_get.
    repeat match goal with
           | |- (if String.eqb ?x ?y then _ else _) = _ =>
               destruct (String.eqb_spec x y) as [Heq | _];
               [try (exfalso; apply Hout; rewrite Heq; simpl; tauto)|]
           end; reflexivity.
Qed.

(** X14: The only two output modes.  With "base64" nothing is written: the
    log stays empty and the world is as before.  Every other value of
    [output_format], "bytes" and the empty string included, is treated as
    "file_path": one file is written, its name is the path returned, and
    the name ends with the extension of the format. *)
Theorem format_output_two_modes (audio_data : list byte)
    (output_format audio_format : string) (w : World) :
  (forall r w' log,
     _format_output audio_data "base64" audio_format w = (r, w', log) ->
     w' = w /\ log = [])
  /\ (output_format <> "base64" ->
      _format_output audio_data output_format audio_format w
      = _format_output audio_data "file_path" audio_format w)
  /\ (forall path w' log,
        _format_output audio_data "file_path" audio_format w
        = (Ok path, w', log) ->
        exists written,
          log = [EvTempFile path written]
          /\ w' = write_file path written (snd (temp_stem w))
          /\ ends_with path
               (ext_map_get (if String.eqb audio_format "pcm"
                                && match audio_data with
                                   | [] => false
                                   | _ => true
                                   end
                             then "wav" else audio_format))).
Proof.
  split; [|split].
  - intros r w' log. unfold _format_output.
    destruct (String.eqb audio_format "pcm"
              && match audio_data with [] => false | _ => true end).
    + rewrite bind_assoc, bind_lift.
      destruct (_add_wav_header audio_data) as [wrapped|e].
      * rewrite !bind_ret. cbn [String.eqb Ascii.eqb Bool.eqb].
        intros H. inversion H. auto.
      * intros H. inversion H. auto.
    + rewrite bind_ret. cbn [String.eqb Ascii.eqb Bool.eqb].
      intros H. inversion H. auto.
  - intros Hfmt. unfold _format_output.
    replace (String.eqb output_format "base64") with false
      by (symmetry; now apply String.eqb_neq).
    reflexivity.
  - intros path w' log. unfold _format_output.
    destruct (String.eqb audio_format "pcm"
              && match audio_data with [] => false | _ => true end).
    + rewrite bind_assoc, bind_lift.
      destruct (_add_wav_header audio_data) as [wrapped|e];
        [|discriminate].
      rewrite !bind_ret. cbn [String.eqb Ascii.eqb Bool.eqb].
      unfold write_named_temporary_file.
      destruct (temp_stem w) as [stem w1]. intros H. inversion H; subst.
      exists wrapped. repeat split. now exists stem.
    + rewrite bind_ret. cbn [String.eqb Ascii.eqb Bool.eqb].
      unfold write_named_temporary_file.
      destruct (temp_stem w) as [stem w1]. intros H. inversion H; subst.
      exists audio_data. repeat split. now exists stem.
Qed.

(** X15: Pcm data too long for a WAV header makes the encoder raise the
    [struct.error] of the header synthesis before anything is produced:
    no file is written and the world is untouched, in either mode. *)
Theorem format_output_rejects_oversized_pcm (audio_data : list byte)
    (output_format : string) (w : World) :
  max_wav_data < Z.of_nat (List.length audio_data) ->
  _format_output audio_data output_format "pcm" w
  = (Raise StructError, w, []).
Proof.
  intros Hlen. unfold _format_output.
  destruct audio_data as [|x rest];
    [simpl in Hlen; unfold max_wav_data in *; lia|].
  cbn [String.eqb Ascii.eqb Bool.eqb andb].
  rewrite bind_assoc, bind_lift, add_wav_header_too_long by exact Hlen.
  reflexivity.
Qed.

End EncoderFacts.

(** ** The resolver beyond the fallback *)

Section ResolverFacts.

Context {rt : Runtime}.

Lemma resolver_primary_ok (self : CambBaseTool) (status : pyval)
    (w w1 : World) (r : response) :
  truthy (getattr status "run_id" PyNone) = true ->
  http_get (PyStr (tts_result_url self (getattr status "run_id" PyNone)))
    [("x-api-key", api_key self)] w = (Ok r, w1) ->
  py_eq_int (status_code r) 200 = true ->
  _get_audio_from_status self status w
  = (Ok (content r,
         _detect_audio_format (content r) (headers_get_content_type r)),
     w1,
     [EvHttpGet
        (PyStr (tts_result_url self (getattr status "run_id" PyNone)))
        [("x-api-key", api_key self)]]).
Proof.
  intros Hrun Hget Hcode.
  unfold tts_result_url in *. cbv zeta in *.
  unfold _get_audio_from_status. cbv zeta.
  rewrite Hrun, bind_assoc, (bind_call_ok _ _ _ _ _ _ Hget), Hcode.
  rewrite !bind_ret. reflexivity.
Qed.

(** X16: The primary path.  For a status with a run id, the result endpoint
    is asked first, with the API key in the [x-api-key] header.  A 200
    answer is the artifact: its bytes, with the format detected from
    them and from its content type; the message of the status is not
    looked at and nothing else is fetched.  An exception of that request
    reaches the caller as it is: the fallback is not tried. *)
Theorem resolver_follows_run_id (self : CambBaseTool) (status : pyval)
    (w w1 : World) :
  let run_id := getattr status "run_id" PyNone in
  let url := PyStr (tts_result_url self run_id) in
  let headers := [("x-api-key", api_key self)] in
  truthy run_id = true ->
  (forall r : response,
     http_get url headers w = (Ok r, w1) ->
     py_eq_int (status_code r) 200 = true ->
     _get_audio_from_status self status w
     = (Ok (content r,
            _detect_audio_format (content r) (headers_get_content_type r)),
        w1, [EvHttpGet url headers]))
  /\ (forall e : pyexn,
        http_get url headers w = (Raise e, w1) ->
        _get_audio_from_status self status w
        = (Raise e, w1, [EvHttpGet url headers])).
Proof.
  intros run_id url headers Hrun.
  unfold url, headers. split.
  - intros r Hget Hcode. fold run_id in Hrun.
    now apply resolver_primary_ok.
  - intros e Hget. unfold tts_result_url in Hget. cbv zeta in Hget.
    unfold tts_result_url. cbv zeta.
    unfold _get_audio_from_status. cbv zeta. fold run_id.
    rewrite Hrun, bind_assoc, (bind_call_raise _ _ _ _ _ _ Hget).
    reflexivity.
Qed.

Lemma fallback_log (message : pyval) (w : World) :
  let url :=
    match message with
    | PyDict d =>
        py_or (dict_get d "output_url")
          (py_or (dict_get d "audio_url") (dict_get d "url"))
    | PyStr s => if str_startswith s "http" then message else PyNone
    | _ => PyNone
    end in
  let log :=
    snd (bind
           (if truthy message then
              if truthy url then
                bind (call (EvHttpGet url []) (http_get url []))
                  (fun r : response =>
                     ret (Some (content r,
                                _detect_audio_format (content r)
                                  (headers_get_content_type r))))
              else ret None
            else ret None)
           (fun fallback : option (list byte * string) =>
              match fallback with
              | Some found => ret found
              | None => ret ([], "pcm")
              end) w) in
  log = [] \/ exists u, log = [EvHttpGet u []].
Proof.
  intros url log. unfold log.
  destruct (truthy message).
  - pose proof (fallback_fetches url w) as Hfetch.
    pose proof (fallback_finds_nothing url w) as Hnothing.
    destruct (truthy url).
    + rewrite Hfetch by reflexivity. unfold fetched_audio.
      right. exists url.
      destruct (http_get url [] w) as [[r|e] w1]; reflexivity.
    + rewrite Hnothing by reflexivity. now left.
  - rewrite bind_ret. now left.
Qed.

Lemma resolver_log_shape (self : CambBaseTool) (status : pyval)
    (w : World) :
  let run_id := getattr status "run_id" PyNone in
  let log := snd (_get_audio_from_status self status w) in
  exists keyed plain : list event,
    log = keyed ++ plain
    /\ (keyed = []
        \/ keyed = [EvHttpGet (PyStr (tts_result_url self run_id))
                      [("x-api-key", api_key self)]])
    /\ (plain = [] \/ exists url, plain = [EvHttpGet url []]).
Proof.
  intros run_id log. unfold log, _get_audio_from_status. cbv zeta.
  fold run_id.
  destruct (truthy run_id).
  - rewrite bind_assoc, bind_call.
    unfold tts_result_url. cbv zeta.
    match goal with
    | |- context [http_get ?u ?h w] =>
        destruct (http_get u h w) as [[r|e] w1]
    end.
    + destruct (py_eq_int (status_code r) 200).
      * rewrite !bind_ret. eexists _, []. split; [|split].
        -- rewrite app_nil_r. reflexivity.
        -- right. reflexivity.
        -- now left.
      * rewrite bind_ret, snd_logged.
        eexists _, _. split; [reflexivity|]. split; [now right|].
        apply fallback_log.
    + eexists _, []. split; [|split].
      * rewrite app_nil_r. reflexivity.
      * right. reflexivity.
      * now left.
  - rewrite bind_ret. eexists [], _. split; [reflexivity|].
    split; [now left|]. apply fallback_log.
Qed.

Lemma resolver_log (self : CambBaseTool) (status : pyval) (w : World) :
  Forall (fun ev => forget_sleep_kind ev = ev)
    (snd (_get_audio_from_status self status w)).
Proof.
  destruct (resolver_log_shape self status w)
    as (keyed & plain & -> & Hk & Hp).
  apply Forall_app. split.
  - destruct Hk as [-> | ->]; repeat constructor.
  - destruct Hp as [-> | [url ->]]; repeat constructor.
Qed.

(** X17: Where the API key goes.  Whatever the status holds and whatever the
    servers answer, the resolver makes at most two requests: at most one
    to the result endpoint of the run, which carries the key, and after
    it at most one to a URL taken from the status message, which carries
    no header at all.  The key is never sent to a URL found in a
    message. *)
Theorem resolver_confines_api_key (self : CambBaseTool) (status : pyval)
    (w : World) :
  let run_id := getattr status "run_id" PyNone in
  let log := snd (_get_audio_from_status self status w) in
  exists keyed plain : list event,
    log = keyed ++ plain
    /\ (keyed = []
        \/ keyed = [EvHttpGet (PyStr (tts_result_url self run_id))
                      [("x-api-key", api_key self)]])
    /\ (plain = [] \/ exists url, plain = [EvHttpGet url []]).
Proof. apply resolver_log_shape. Qed.

(** X18: A finished task that names neither a run nor a message resolves to
    the empty pcm artifact without any request, and the encoder turns
    that into an empty result rather than an error: the empty base64
    text, or an empty file named [.wav]. *)
Theorem empty_artifact_is_not_an_error (self : CambBaseTool)
    (status : pyval) (output_format : string) (w : World) :
  truthy (getattr status "run_id" PyNone) = false ->
  truthy (getattr status "message" PyNone) = false ->
  _get_audio_from_status self status w = (Ok ([], "pcm"), w, [])
  /\ bind (_get_audio_from_status self status)
       (fun found => _format_output (fst found) output_format (snd found)) w
     = (if String.eqb output_format "base64"
        then (Ok "", w, [])
        else write_named_temporary_file ".wav" [] w).
Proof.
  intros Hrun Hmsg.
  assert (H : _get_audio_from_status self status w = (Ok ([], "pcm"), w, [])).
  { unfold _get_audio_from_status. cbv zeta.
    rewrite Hrun, bind_ret, Hmsg, !bind_ret. reflexivity. }
  split; [exact H|].
  unfold bind at 1. rewrite H. cbn [fst snd].
  unfold _format_output. cbn [String.eqb Ascii.eqb Bool.eqb andb].
  rewrite bind_ret.
  destruct (String.eqb output_format "base64"); cbn [app];
    [reflexivity|].
  destruct (write_named_temporary_file _ _ _) as [[r w'] t]. reflexivity.
Qed.

End ResolverFacts.

(** ** The translated-speech tool, end to end *)

Section TranslatedTTSFacts.

Context {rt : Runtime}.

Import TranslatedTTS.

Lemma bind_invoke {A B} (f : World -> outcome A * World) (k : A -> M B)
    (w : World) :
  bind (invoke f) k w
  = match f w with
    | (Ok a, w1) => k a w1
    | (Raise e, w1) => (Raise e, w1, [])
    end.
Proof.
  unfold bind, invoke. destruct (f w) as [[a|e] w1]; [|reflexivity].
  now destruct (k a w1) as [[r w2] t].
Qed.

Lemma logged_logged_app {A} (t0 t1 : list event)
    (res : outcome A * World * list event) :
  logged t0 (logged t1 res) = logged (t0 ++ t1) res.
Proof. destruct res as [[r w] t]. simpl. now rewrite app_assoc. Qed.

Lemma bind_run {A B} (m : M A) (k : A -> M B) (w : World) :
  bind m k w
  = match m w with
    | (Ok a, w1, t1) => logged t1 (k a w1)
    | (Raise e, w1, t1) => (Raise e, w1, t1)
    end.
Proof. unfold bind. now destruct (m w) as [[[a|e] w1] t1]. Qed.

Lemma map_forget_id (t : list event) :
  Forall (fun ev => forget_sleep_kind ev = ev) t ->
  map forget_sleep_kind t = t.
Proof.
  induction 1 as [|ev t Hev _ IH]; [reflexivity|].
  simpl. now rewrite Hev, IH.
Qed.

Lemma forget_quiet {A} (res : outcome A * World * list event) :
  Forall (fun ev => forget_sleep_kind ev = ev) (snd res) ->
  forget_sleep_kinds res = res.
Proof.
  destruct res as [[r w] t]. simpl. intros H. now rewrite map_forget_id.
Qed.

Lemma resolver_async_sync (self : CambBaseTool) (status : pyval) (w : World) :
  getattr (sync_client self) "_client_wrapper" PyNone
  = getattr (async_client self) "_client_wrapper" PyNone ->
  _get_audio_from_status_async self status w
  = _get_audio_from_status self status w.
Proof.
  intros H. unfold _get_audio_from_status_async, _get_audio_from_status.
  cbv zeta. now rewrite H.
Qed.

(** X19: The two variants of the tool do the same work.  When the blocking
    and the asynchronous client are set up with the same client wrapper
    and the poll interval is a delay that both [time.sleep] and
    [asyncio.sleep] take, [_run] and [_arun] end with the same result,
    leave the same world and log the same events in the same order, but
    for the kind of the sleeps between two status fetches. *)
Theorem translated_tts_variants_agree (self : CambBaseTool)
    (create_translated_tts : sdk_method) (get_status : status_fn)
    (text : string) (source_language target_language voice_id : Z)
    (output_format : string) (formality : pyval) (w : World) :
  getattr (sync_client self) "_client_wrapper" PyNone
  = getattr (async_client self) "_client_wrapper" PyNone ->
  time_sleep_error (poll_interval self) = None ->
  asyncio_sleep_error (poll_interval self) = None ->
  forget_sleep_kinds
    (_run self create_translated_tts get_status text source_language
       target_language voice_id output_format formality w)
  = _arun self create_translated_tts get_status text source_language
      target_language voice_id output_format formality w.
Proof.
  intros Hclients Hblocking Hsuspending. unfold _run, _arun. cbv zeta.
  rewrite !bind_invoke.
  destruct (create_translated_tts _ w) as [[result|e] w1]; [|reflexivity].
  unfold attribute.
  destruct (get_attr result "task_id") as [task_id|];
    [|rewrite !bind_raise; reflexivity].
  rewrite !bind_ret.
  rewrite (bind_run (_poll_task_status_sync _ _ _ _)),
    (bind_run (_poll_task_status _ _ _ _)).
  rewrite <- (sync_poll_read_cooperatively self get_status
                (py_str task_id) None w1 Hblocking Hsuspending).
  destruct (_poll_task_status_sync self get_status (py_str task_id) None w1)
    as [[[status|e] w2] t2]; [|reflexivity].
  cbn [forget_sleep_kinds]. rewrite forget_logged. f_equal.
  rewrite !bind_run, resolver_async_sync by exact Hclients.
  pose proof (resolver_log self status w2) as Hlog.
  destruct (_get_audio_from_status self status w2)
    as [[[[audio_data audio_format]|e] w3] t3]; cbn [snd] in Hlog.
  - rewrite forget_logged, (map_forget_id _ Hlog). f_equal.
    apply forget_quiet, format_output_log.
  - simpl in *. now rewrite (map_forget_id _ Hlog).
Qed.

(** X20: The whole tool on a task that completes with a run.  The task is
    submitted, its status polled until the success payload arrives (the
    pending rounds before it slept through, which asks, when there is
    such a round, that [time.sleep] takes the interval), the
    result endpoint of the payload's run id asked, and a 200 answer whose
    bytes begin with RIFF is the audio, whatever its content type says:
    with "base64" the text returned encodes exactly those bytes, with any
    other output format exactly those bytes are written to a new file
    whose name ends with [.wav] and is returned.  The log holds the
    polling rounds, the last fetch, the one request and, when a file is
    written, the file. *)
Theorem translated_tts_delivers_wav (self : CambBaseTool)
    (create_translated_tts : sdk_method) (get_status : status_fn)
    (text : string) (source_language target_language voice_id : Z)
    (output_format : string) (formality : pyval)
    (result task_id status : pyval) (k : nat) (r : response)
    (w w1 w2 w3 w4 : World) :
  let kwargs :=
    tts_kwargs text source_language target_language voice_id formality in
  let run_id := getattr status "run_id" PyNone in
  let url := PyStr (tts_result_url self run_id) in
  let headers := [("x-api-key", api_key self)] in
  create_translated_tts kwargs w = (Ok result, w1) ->
  get_attr result "task_id" = Some task_id ->
  pending_run get_status (py_str task_id) None (poll_interval self) k w1 w2 ->
  get_status (py_str task_id) None w2 = (Ok status, w3) ->
  success_status status = true ->
  (k < range_len (max_poll_attempts self))%nat ->
  ((0 < k)%nat -> time_sleep_error (poll_interval self) = None) ->
  truthy run_id = true ->
  http_get url headers w3 = (Ok r, w4) ->
  py_eq_int (status_code r) 200 = true ->
  starts_with (content r) (b "RIFF") ->
  _run self create_translated_tts get_status text source_language
    target_language voice_id output_format formality w
  = logged
      (pending_log EvTimeSleep (py_str task_id) None (poll_interval self) k
       ++ [EvGetStatus (py_str task_id) None; EvHttpGet url headers])
      (if String.eqb output_format "base64"
       then (Ok (b64encode (content r)), w4, [])
       else write_named_temporary_file ".wav" (content r) w4).
Proof.
  intros kwargs run_id url headers Hcreate Hid Hrun Hstatus Hsucc Hlt
    Hsleep Hrid Hget Hcode Hriff.
  unfold _run. cbv zeta. fold kwargs.
  rewrite bind_invoke, Hcreate. unfold attribute. rewrite Hid, bind_ret.
  rewrite bind_run,
    (sync_poll_success _ _ _ _ _ _ _ _ _ Hrun Hsleep Hstatus Hsucc Hlt).
  rewrite bind_run,
    (resolver_primary_ok _ _ _ _ _ Hrid Hget Hcode).
  rewrite logged_logged_app.
  assert (Hwav : _detect_audio_format (content r)
                   (headers_get_content_type r) = "wav").
  { destruct Hriff as [rest ->]. reflexivity. }
  rewrite Hwav, format_output_plain by discriminate.
  rewrite <- app_assoc. reflexivity.
Qed.

End TranslatedTTSFacts.

(** ** The encoders of the three audio tools, side by side *)

Section EncodersAgree.

Context {rt : Runtime}.

(** X21: The text-to-sound and the TTS encoder never change the bytes and
    always name the file [.wav]: they do what the translated-speech
    encoder does for audio known to be wav.  The TTS encoder alone knows
    "bytes", for which it hands back the input with no file written; for
    the other two "bytes" is one more name for "file_path". *)
Theorem encoders_agree_on_wav (audio_data : list byte)
    (output_format : string) (w : World) :
  TextToSound._format_output audio_data output_format w
  = _format_output audio_data output_format "wav" w
  /\ (output_format <> "bytes" ->
      TTS._format_output audio_data output_format w
      = bind (TextToSound._format_output audio_data output_format)
          (fun text => ret (PyStr text)) w)
  /\ TTS._format_output audio_data "bytes" w = (Ok (PyBytes audio_data), w, [])
  /\ TextToSound._format_output audio_data "bytes" w
     = write_named_temporary_file ".wav" audio_data w.
Proof.
  repeat split.
  - rewrite format_output_plain by discriminate.
    unfold TextToSound._format_output.
    destruct (String.eqb output_format "base64"); reflexivity.
  - intros Hfmt. unfold TTS._format_output, TextToSound._format_output.
    replace (String.eqb output_format "bytes") with false
      by (symmetry; now apply String.eqb_neq).
    destruct (String.eqb output_format "base64"); [|reflexivity].
    now rewrite bind_ret.
Qed.

End EncodersAgree.

(** ** The voice list *)

Section VoiceListFacts.

Import VoiceList.

(** X22: The gender table is total on integers and safe by default: 0, 1, 2
    and 9 give their names, every other integer gives "unknown", and so
    do [None] and strings; [True] and [False] are read as 1 and 0.  Only
    a value that cannot be hashed, a list or a mapping, raises. *)
Theorem gender_to_string_total (gender : pyval) :
  (forall n : Z,
     gender = PyInt n ->
     _gender_to_string gender
     = Ok (if n =? 0 then "not_specified"
           else if n =? 1 then "male"
           else if n =? 2 then "female"
           else if n =? 9 then "not_applicable"
           else "unknown"))
  /\ (gender = PyBool true -> _gender_to_string gender = Ok "male")
  /\ (gender = PyBool false -> _gender_to_string gender = Ok "not_specified")
  /\ (gender = PyNone \/ (exists s, gender = PyStr s) ->
      _gender_to_string gender = Ok "unknown")
  /\ ((exists text, _gender_to_string gender = Ok text)
      <-> (forall l, gender <> PyList l) /\ (forall d, gender <> PyDict d)).
Proof.
  repeat split.
  - intros n ->. reflexivity.
  - intros ->. reflexivity.
  - intros ->. reflexivity.
  - intros [-> | [s ->]]; reflexivity.
  - intros l ->. destruct H as [text H]. discriminate.
  - intros d ->. destruct H as [text H]. discriminate.
  - intros [Hl Hd]. destruct gender; simpl; eauto.
    + now elim (Hl items).
    + now elim (Hd entries).
Qed.

Lemma voice_entry_representation (d : list (string * pyval)) :
  voice_entry (PyDict d) = voice_entry (PyObj d).
Proof. reflexivity. Qed.

Lemma voice_loop_representation (ds : list (list (string * pyval)))
    (acc : list pyval) :
  voice_loop (map PyDict ds) acc = voice_loop (map PyObj ds) acc.
Proof.
  revert acc. induction ds as [|d ds IH]; intros acc; [reflexivity|].
  cbn [map voice_loop]. rewrite voice_entry_representation.
  destruct (voice_entry (PyObj d)); [apply IH | reflexivity].
Qed.

(** X23: Voices may come as mappings or as objects: a list of mappings and the
    list of objects with the same fields give the same JSON. *)
Theorem format_voices_representation_independent
    (json_dumps : pyval -> outcome string)
    (ds : list (list (string * pyval))) :
  _format_voices json_dumps (map PyDict ds)
  = _format_voices json_dumps (map PyObj ds).
Proof.
  unfold _format_voices. now rewrite voice_loop_representation.
Qed.

Lemma voice_entry_shape (voice : pyval) :
  gender_hashable voice = true ->
  exists d,
    voice_entry voice = Ok (PyDict d)
    /\ map fst d = ["id"; "name"; "gender"; "age"; "language"].
Proof.
  unfold gender_hashable, voice_entry.
  destruct voice as [| | | | | | d | attrs];
    try (intros _; eexists; split; reflexivity).
  - change (getattr (PyObj d) "gender" (PyInt 0))
      with (dict_get_or d "gender" (PyInt 0)).
    destruct (dict_get_or d "gender" (PyInt 0)); try discriminate;
      intros _; eexists; split; reflexivity.
  - destruct (getattr (PyObj attrs) "gender" (PyInt 0)); try discriminate;
      intros _; eexists; split; reflexivity.
Qed.

Lemma voice_loop_shape (voices acc : list pyval) :
  forallb gender_hashable voices = true ->
  exists entries,
    voice_loop voices acc = Ok (acc ++ entries)
    /\ List.length entries = List.length voices
    /\ Forall (fun e => exists d,
                 e = PyDict d
                 /\ map fst d = ["id"; "name"; "gender"; "age"; "language"])
         entries.
Proof.
  revert acc. induction voices as [|voice voices IH]; intros acc H.
  - exists []. rewrite app_nil_r. repeat split. constructor.
  - cbn [forallb] in H. apply andb_true_iff in H. destruct H as [Hv Hrest].
    destruct (voice_entry_shape voice Hv) as (d & Hentry & Hkeys).
    destruct (IH (acc ++ [PyDict d]) Hrest) as (entries & Hloop & Hlen & Hall).
    exists (PyDict d :: entries). cbn [voice_loop]. rewrite Hentry.
    cbn [obind]. rewrite Hloop, <- app_assoc. repeat split.
    + cbn. now rewrite Hlen.
    + constructor; eauto.
Qed.

(** X24: The shape of the voice list.  When every voice has a gender the
    table can look up, [_format_voices] serializes a list with exactly
    one entry per voice, and every entry is a mapping with the five keys
    id, name, gender, age and language, in that order, whatever fields
    the voice itself had. *)
Theorem format_voices_shape (json_dumps : pyval -> outcome string)
    (voices : list pyval) :
  forallb gender_hashable voices = true ->
  exists entries,
    _format_voices json_dumps voices = json_dumps (PyList entries)
    /\ List.length entries = List.length voices
    /\ Forall (fun e => exists d,
                 e = PyDict d
                 /\ map fst d = ["id"; "name"; "gender"; "age"; "language"])
         entries.
Proof.
  intros H. destruct (voice_loop_shape voices [] H)
    as (entries & Hloop & Hlen & Hall).
  exists entries. unfold _format_voices. rewrite Hloop. auto.
Qed.

End VoiceListFacts.

(** ** The separation result *)

Section SeparationFacts.

Context {rt : Runtime}.

Import AudioSeparation.

(** X25: For a result that carries no raw bytes, the separation tool writes
    nothing and reports, under "vocals", the first attribute the result
    has among voice_url, vocals_url and vocals, and under "background"
    the first among instrumental_url, background_url and background;
    what the result lacks is reported as null, and the status is always
    "completed". *)
Theorem separation_reports_first_attribute
    (json_dumps : pyval -> outcome string) (result : pyval) (w : World) :
  isinstance_bytes (getattr result "vocals" PyNone) = false ->
  isinstance_bytes (getattr result "background" PyNone) = false ->
  _format_result json_dumps result w
  = (json_dumps
       (PyDict
          [("vocals",
            first_attribute result ["voice_url"; "vocals_url"; "vocals"]);
           ("background",
            first_attribute result
              ["instrumental_url"; "background_url"; "background"]);
           ("status", PyStr "completed")]),
     w, []).
Proof.
  intros Hv Hb. unfold _format_result.
  rewrite !(hasattr_data result) by reflexivity.
  unfold getattr in *. cbn [first_attribute].
  destruct (get_attr result "vocals_url") as [vu|];
    destruct (get_attr result "vocals") as [v|];
    destruct (get_attr result "background_url") as [bu|];
    destruct (get_attr result "background") as [bg|];
    destruct (get_attr result "instrumental_url") as [iu|];
    destruct (get_attr result "voice_url") as [vo|];
    try (destruct v; try discriminate Hv);
    try (destruct bg; try discriminate Hb);
    rewrite ?bind_ret; unfold lift; reflexivity.
Qed.


End SeparationFacts.

(** ** The further properties at work *)

Lemma poll_propagates_fetch_error_witness :
  _poll_task_status_sync Demo.tool
    (Scenario.failing [Demo.pending] Scenario.connection_error)
    "t-1" None Demo.w0
  = (Raise Scenario.connection_error, Demo.mkWorld 2 2 [],
     [EvGetStatus "t-1" None; EvTimeSleep (Demo.secs 2);
      EvGetStatus "t-1" None]).
Proof.
  refine (proj2 (poll_propagates_fetch_error Demo.tool
                   (Scenario.failing [Demo.pending] Scenario.connection_error)
                   "t-1" None 1 Demo.w0 (Demo.mkWorld 2 1 [])
                   (Demo.mkWorld 2 2 []) Scenario.connection_error _ _ _)
            (fun _ => eq_refl)).
  - eapply pending_cons; [reflexivity | reflexivity | apply pending_nil].
  - reflexivity.
  - vm_compute. lia.
Defined.

Lemma poll_without_budget_witness :
  _poll_task_status Scenario.idle_tool (Demo.scripted [] Demo.completed)
    "t-1" None Demo.w0
  = (Raise (TimeoutError "Task t-1 did not complete within 0.0 seconds"),
     Demo.w0, []).
Proof.
  apply (proj1 (poll_without_budget Scenario.idle_tool
                  (Demo.scripted [] Demo.completed) "t-1" None Demo.w0
                  (Z.le_refl 0))).
Defined.

Lemma poll_returns_only_success_witness :
  get_attr Demo.completed "status" = Some (PyStr "completed")
  \/ get_attr Demo.completed "status" = Some (PyStr "SUCCESS").
Proof.
  apply (poll_returns_only_success Demo.tool
           (Demo.scripted [Demo.pending] Demo.completed) "t-1" None
           Demo.w0 (Demo.mkWorld 2 2 []) Demo.completed
           [EvGetStatus "t-1" None; EvAsyncioSleep (Demo.secs 2);
            EvGetStatus "t-1" None]).
  left. reflexivity.
Defined.

Lemma translation_passes_other_outcomes_witness :
  _run (rt := Scenario.streaming) "Hello" 1 2 PyNone Demo.w0
  = (Ok (PyStr "Hola"), Demo.w0,
     [EvTranslationStream
        [("text", PyStr "Hello"); ("source_language", PyInt 1);
         ("target_language", PyInt 2)]]).
Proof.
  apply (proj1 (translation_passes_other_outcomes (rt := Scenario.streaming)
                  "Hello" 1 2 PyNone Demo.w0 Demo.w0
                  (Ok (PyList [PyStr "Ho"; PyObj [("text", PyStr "la")]]))
                  (fun code body H => eq_ind (Ok _) (fun r =>
                     match r with Ok _ => True | Raise _ => False end)
                     I _ H))).
  reflexivity.
Defined.

Lemma wrapped_audio_is_wav_witness :
  exists out : list byte,
    _add_wav_header [x01; x02] = Ok out
    /\ _detect_audio_format out "audio/mpeg" = "wav"
    /\ _format_output (rt := Demo.runtime) out "base64"
         (_detect_audio_format out "audio/mpeg") Demo.w0
       = (Ok (b64encode out), Demo.w0, []).
Proof.
  eexists. split; [reflexivity|].
  apply (wrapped_audio_is_wav (rt := Demo.runtime) [x01; x02] _
           "audio/mpeg" "base64" Demo.w0 eq_refl).
Defined.

Lemma format_output_keeps_container_audio_witness :
  _format_output (rt := Demo.runtime) (b "ID3.") "file_path" "mp3" Demo.w0
  = (Ok "/tmp/tmp0.mp3",
     Demo.mkWorld 0 0 [("/tmp/tmp0.mp3", b "ID3.")],
     [EvTempFile "/tmp/tmp0.mp3" (b "ID3.")]).
Proof.
  apply (proj1 (format_output_keeps_container_audio (rt := Demo.runtime)
                  (b "ID3.") "file_path" "mp3" Demo.w0
                  (fun H => eq_ind "mp3" (fun s =>
                     match s with String "m" _ => True | _ => False end)
                     I _ H))).
Defined.

Lemma format_output_rejects_oversized_pcm_witness :
  _format_output (rt := Demo.runtime)
    (repeat x00 (Z.to_nat 4294967260)) "file_path" "pcm" Demo.w0
  = (Raise StructError, Demo.w0, []).
Proof.
  apply (format_output_rejects_oversized_pcm (rt := Demo.runtime)).
  rewrite repeat_length, Z2Nat.id by lia.
  unfold max_wav_data. lia.
Defined.

Lemma resolver_follows_run_id_witness :
  _get_audio_from_status Demo.tool Demo.completed Demo.w0
  = (Ok (Demo.wav_bytes, "wav"), Demo.w0,
     [EvHttpGet (PyStr "https://client.camb.ai/apis/tts-result/42")
        [("x-api-key", PyStr "key")]]).
Proof.
  apply (proj1 (resolver_follows_run_id Demo.tool Demo.completed
                  Demo.w0 Demo.w0 eq_refl)
           (mkResponse (PyInt 200) Demo.wav_bytes (Some "audio/wav")));
    reflexivity.
Defined.

Lemma empty_artifact_is_not_an_error_witness :
  _get_audio_from_status Demo.tool Demo.pending Demo.w0
  = (Ok ([], "pcm"), Demo.w0, [])
  /\ bind (_get_audio_from_status Demo.tool Demo.pending)
       (fun found => _format_output (fst found) "base64" (snd found)) Demo.w0
     = (Ok "", Demo.w0, []).
Proof.
  apply (empty_artifact_is_not_an_error Demo.tool Demo.pending "base64"
           Demo.w0 eq_refl eq_refl).
Defined.

Lemma translated_tts_variants_agree_witness :
  forget_sleep_kinds
    (TranslatedTTS._run Demo.tool Scenario.create
       (Demo.scripted [Demo.pending] Demo.completed)
       "Hello" 1 2 147320 "base64" PyNone Demo.w0)
  = TranslatedTTS._arun Demo.tool Scenario.create
      (Demo.scripted [Demo.pending] Demo.completed)
      "Hello" 1 2 147320 "base64" PyNone Demo.w0.
Proof.
  apply (translated_tts_variants_agree Demo.tool Scenario.create
           (Demo.scripted [Demo.pending] Demo.completed)
           "Hello" 1 2 147320 "base64" PyNone Demo.w0
           eq_refl eq_refl eq_refl).
Defined.

Lemma translated_tts_delivers_wav_witness :
  TranslatedTTS._run Demo.tool Scenario.create
    (Demo.scripted [Demo.pending] Demo.completed)
    "Hello" 1 2 147320 "file_path" PyNone Demo.w0
  = (Ok "/tmp/tmp0.wav",
     Demo.mkWorld 2 2 [("/tmp/tmp0.wav", Demo.wav_bytes)],
     [EvGetStatus "t-1" None; EvTimeSleep (Demo.secs 2);
      EvGetStatus "t-1" None;
      EvHttpGet (PyStr "https://client.camb.ai/apis/tts-result/42")
        [("x-api-key", PyStr "key")];
      EvTempFile "/tmp/tmp0.wav" Demo.wav_bytes]).
Proof.
  apply (translated_tts_delivers_wav Demo.tool Scenario.create
           (Demo.scripted [Demo.pending] Demo.completed)
           "Hello" 1 2 147320 "file_path" PyNone
           (PyObj [("task_id", PyStr "t-1")]) (PyStr "t-1") Demo.completed
           1 (mkResponse (PyInt 200) Demo.wav_bytes (Some "audio/wav"))
           Demo.w0 Demo.w0 (Demo.mkWorld 2 1 []) (Demo.mkWorld 2 2 [])
           (Demo.mkWorld 2 2 [])).
  - reflexivity.
  - reflexivity.
  - eapply pending_cons; [reflexivity | reflexivity | apply pending_nil].
  - reflexivity.
  - reflexivity.
  - vm_compute. lia.
  - reflexivity.
  - reflexivity.
  - reflexivity.
  - reflexivity.
  - now exists (b "$...WAVEfmt ").
Defined.

Lemma format_voices_shape_witness :
  exists entries,
    VoiceList._format_voices Scenario.dumps
      [PyDict [("id", PyInt 7); ("gender", PyInt 2)]; PyObj []]
    = Scenario.dumps (PyList entries)
    /\ List.length entries = 2%nat.
Proof.
  destruct (format_voices_shape Scenario.dumps
              [PyDict [("id", PyInt 7); ("gender", PyInt 2)]; PyObj []]
              eq_refl) as (entries & H & Hlen & _).
  exists entries. split; assumption.
Defined.

Lemma separation_reports_first_attribute_witness :
  AudioSeparation._format_result (rt := Demo.runtime) Scenario.dumps
    Scenario.separation_result Demo.w0
  = (Ok "vocals,background,status", Demo.w0, []).
Proof.
  apply (separation_reports_first_attribute (rt := Demo.runtime)
           Scenario.dumps Scenario.separation_result Demo.w0
           eq_refl eq_refl).
Defined.


Example toolkit_takes_key_from_environment :
  Config.get_tools Scenario.toolkit [("CAMB_API_KEY", "secret")]
  = Ok [Config.mkBuilt Config.CambTTSTool (PyStr "secret") PyNone
          (Demo.secs 60);
        Config.mkBuilt Config.CambTranslationTool (PyStr "secret") PyNone
          (Demo.secs 60);
        Config.mkBuilt Config.CambVoiceListTool (PyStr "secret") PyNone
          (Demo.secs 60)]
  /\ Config.get_tools Scenario.toolkit [("CAMB_API_KEY", "")]
     = Raise Config.api_key_required.
Proof. split; reflexivity. Qed.

Example extract_text_examples :
  _extract_text (rt := Demo.runtime)
    (PyList [PyStr "Ho"; PyInt 3; PyObj [("text", PyStr "la")]])
  = Ok (PyStr "Hola")
  /\ _extract_text (rt := Demo.runtime) (PyDict [("text", PyStr "Hola")])
     = Ok (PyStr "text")
  /\ _extract_text (rt := Demo.runtime) (PyList [PyObj [("text", PyInt 3)]])
     = Raise (TypeError "sequence item: expected str instance").
Proof. repeat split; reflexivity. Qed.

(** A result that is a model of the SDK is iterable, so its [text] is
    not reached: the first branch of [_extract_text] takes it and joins
    nothing. *)
Example extract_text_of_iterable_model :
  _extract_text (rt := Demo.runtime)
    (PyObj [("__iter__", PyNone); ("text", PyStr "Hola")])
  = Ok (PyStr "")
  /\ _extract_text (rt := Demo.runtime) (PyObj [("text", PyStr "Hola")])
     = Ok (PyStr "Hola").
Proof. split; reflexivity. Qed.
